(* ===========================================================================
   Beast X configuration app (beastx_app.py): a shallow embedding of the
   packet catalog, the HID transport, the JSON configuration store and the
   UI-side setters that mutate it and dispatch hardware writes.
   =========================================================================== *)

From Stdlib Require Import ZArith String Ascii Bool Lia List.
Import ListNotations.
Open Scope string_scope.
Open Scope Z_scope.
Open Scope list_scope.
Set Warnings "-register-all".


(* ---------------------------------------------------------------------------
   Python runtime pieces used by the module
   --------------------------------------------------------------------------- *)

(** The Python exceptions the module raises or lets escape; [py_str]
    is [str(e)].  A [KeyError] carries [str] of its key. *)
Inductive PyExc :=
| RuntimeError (msg : string)
| ValueError (msg : string)
| IndexError (msg : string)
| TypeError (msg : string)
| KeyError (msg : string)
| NameError (msg : string).

Definition py_str (e : PyExc) : string :=
  match e with
  | RuntimeError m | ValueError m | IndexError m | TypeError m | KeyError m | NameError m => m
  end.

(** The cell of the name bound by [except Exception as e], which the
    lambdas passed to [self.after] close over.  Python deletes the name
    when the handler ends, as if by [del e]. *)
Inductive Cell :=
| Bound (e : PyExc)
| Deleted.

Definition end_handler (c : Cell) : Cell := Deleted.

(** Reading [e] from a closure. *)
Definition read_cell (c : Cell) : PyExc + PyExc :=
  match c with
  | Bound e => inl e
  | Deleted =>
      inr (NameError "cannot access free variable 'e' where it is not associated with a value in enclosing scope")
  end.

(** Decimal digits of a natural number, most significant first. *)
Fixpoint dec_digits_aux (fuel : nat) (n : Z) (acc : list Z) : list Z :=
  match fuel with
  | O => acc
  | S f =>
      if n <? 10 then n :: acc
      else dec_digits_aux f (n / 10) (n mod 10 :: acc)
  end.

Definition dec_digits (n : Z) : list Z :=
  dec_digits_aux (S (Z.to_nat (Z.log2 n))) n [].

Definition digit_char (d : Z) : string :=
  String (ascii_of_nat (48 + Z.to_nat d)) EmptyString.

Definition digits_string (ds : list Z) : string :=
  fold_right (fun d s => (digit_char d ++ s)%string) "" ds.

(** [str(n)] / [f"{n}"] for a Python int. *)
Definition py_int_str (n : Z) : string :=
  if n <? 0 then ("-" ++ digits_string (dec_digits (- n)))%string
  else digits_string (dec_digits n).

(** Insert a comma every three digits counting from the right. *)
Fixpoint group3 (ds : list Z) : string :=
  match ds with
  | [] => ""
  | d :: rest =>
      let sep : string :=
        if (Z.of_nat (List.length rest) mod 3 =? 0) && negb (List.length rest =? 0)%nat
        then "," else "" in
      (digit_char d ++ sep ++ group3 rest)%string
  end.

(** [f"{n:,}"] for a Python int. *)
Definition py_int_comma (n : Z) : string :=
  if n <? 0 then ("-" ++ group3 (dec_digits (- n)))%string
  else group3 (dec_digits n).

(** Python's [lst[i]]: negative indices count from the end, anything
    outside [-len, len) raises IndexError. *)
Definition py_norm_index {A} (l : list A) (i : Z) : option nat :=
  let n := Z.of_nat (length l) in
  if (0 <=? i) && (i <? n) then Some (Z.to_nat i)
  else if (- n <=? i) && (i <? 0) then Some (Z.to_nat (n + i))
  else None.

Definition py_getitem {A} (l : list A) (i : Z) : A + PyExc :=
  match py_norm_index l i with
  | Some k =>
      match nth_error l k with
      | Some x => inl x
      | None => inr (IndexError "list index out of range")
      end
  | None => inr (IndexError "list index out of range")
  end.

(** [lst[i] = x]. *)
Fixpoint replace_nth {A} (l : list A) (k : nat) (x : A) : list A :=
  match l, k with
  | [], _ => []
  | _ :: t, O => x :: t
  | y :: t, S k' => y :: replace_nth t k' x
  end.

Definition py_setitem {A} (l : list A) (i : Z) (x : A) : list A + PyExc :=
  match py_norm_index l i with
  | Some k => inl (replace_nth l k x)
  | None => inr (IndexError "list assignment index out of range")
  end.

(** [lst.pop(i)] (the removed element is discarded by the caller). *)
Fixpoint remove_nth {A} (l : list A) (k : nat) : list A :=
  match l, k with
  | [], _ => []
  | _ :: t, O => t
  | y :: t, S k' => y :: remove_nth t k'
  end.

Definition py_pop {A} (l : list A) (i : Z) : list A + PyExc :=
  match py_norm_index l i with
  | Some k => inl (remove_nth l k)
  | None => inr (IndexError "pop index out of range")
  end.

(* ---------------------------------------------------------------------------
   Protocol packets (POLL_PACKETS, LOD_PACKETS, pad_packet)
   --------------------------------------------------------------------------- *)

Definition VID : Z := 0x36A7.
Definition PID : Z := 0xA887.
Definition REPORT_SIZE : nat := 64.

Definition POLL_PACKETS : list (Z * list Z) := [
  (125,  [0x04;0x73;0x02;0x06;0x18;0x00;0x00;0x00;0x00;0x04;0x04;0x04;0x00;0x00;0x21;0x00;0x95;0x01;0x00;0x00;0x00;0x00;0x01;0x00;0x40;0x06;0x40;0x06;0x10;0x00;0xc8;0x01]);
  (250,  [0x04;0x71;0x83;0x06;0x18;0x00;0x00;0x00;0x00;0x04;0x04;0x04;0x00;0x00;0x21;0x00;0x95;0x01;0x00;0x01;0x00;0x00;0x01;0x00;0x40;0x06;0x40;0x06;0x10;0x00;0xc8;0x01]);
  (500,  [0x04;0x74;0x40;0x06;0x18;0x00;0x00;0x00;0x00;0x04;0x04;0x04;0x00;0x00;0x21;0x00;0x95;0x01;0x00;0x02;0x00;0x00;0x01;0x00;0x40;0x06;0x40;0x06;0x10;0x00;0xc8;0x01]);
  (1000, [0x04;0x76;0xc1;0x06;0x18;0x00;0x00;0x00;0x00;0x04;0x04;0x04;0x00;0x00;0x21;0x00;0x95;0x01;0x00;0x03;0x00;0x00;0x01;0x00;0x40;0x06;0x40;0x06;0x10;0x00;0xc8;0x01]);
  (2000, [0x04;0x7d;0x86;0x06;0x18;0x00;0x00;0x00;0x00;0x04;0x04;0x04;0x00;0x00;0x21;0x00;0x95;0x01;0x00;0x04;0x00;0x00;0x01;0x00;0x40;0x06;0x40;0x06;0x10;0x00;0xc8;0x01]);
  (4000, [0x04;0x7f;0x07;0x06;0x18;0x00;0x00;0x00;0x00;0x04;0x04;0x04;0x00;0x00;0x21;0x00;0x95;0x01;0x00;0x05;0x00;0x00;0x01;0x00;0x40;0x06;0x40;0x06;0x10;0x00;0xc8;0x01])
].

Definition LOD_PACKETS : list (Z * list Z) := [
  (0, [0x04;0x76;0xc1;0x06;0x18;0x00;0x00;0x00;0x00;0x04;0x04;0x04;0x00;0x00;0x21;0x00;0x95;0x01;0x00;0x03;0x00;0x00;0x01;0x00;0x40;0x06;0x40;0x06;0x10;0x00;0xc8;0x01]);
  (1, [0x04;0x72;0x3d;0x06;0x18;0x00;0x00;0x00;0x00;0x04;0x04;0x04;0x00;0x00;0x21;0x00;0x95;0x01;0x00;0x03;0x00;0x01;0x01;0x00;0x40;0x06;0x40;0x06;0x10;0x00;0xc8;0x01])
].

(** Dict lookup on an int-keyed table ([k in D] and [D[k]]). *)
Fixpoint table_get (t : list (Z * list Z)) (k : Z) : option (list Z) :=
  match t with
  | [] => None
  | (k', v) :: t' => if k =? k' then Some v else table_get t' k
  end.

(** [pad_packet]: [buf = bytearray(64); buf[:len(data)] = data].  The
    slice assignment replaces the first [len(data)] bytes (all 64 when
    the data is longer, which then grows the buffer); a value outside
    0..255 makes the bytearray assignment raise ValueError. *)
Definition pad_packet (data : list Z) : list Z + PyExc :=
  if forallb (fun b => (0 <=? b) && (b <=? 255)) data
  then inl (data ++ skipn (length data) (repeat 0 REPORT_SIZE))
  else inr (ValueError "byte must be in range(0, 256)").

(* ---------------------------------------------------------------------------
   HID transport (BeastXDevice)
   --------------------------------------------------------------------------- *)

(** An open hidapi handle: what [write] returns for a buffer and what
    [error()] reports afterwards. *)
Record HidHandle := mkHandle {
  hid_write : list Z -> Z;
  hid_error : string
}.

(** [BeastXDevice]: the optional open handle [_dev], plus the log of
    every buffer handed to [_dev.write] (the transport calls made). *)
Record Device := mkDevice {
  dev : option HidHandle;
  written : list (list Z)
}.

(** [BeastXDevice.send]. *)
Definition send (d : Device) (packet : list Z) : Device * (Z + PyExc) :=
  match dev d with
  | None => (d, inr (RuntimeError "Not connected"))
  | Some h =>
      match pad_packet packet with
      | inr e => (d, inr e)
      | inl buf =>
          let wbuf := 0 :: buf in
          let result := hid_write h wbuf in
          let d' := mkDevice (dev d) (written d ++ [wbuf]) in
          if result <? 0
          then (d', inr (RuntimeError ("Write failed: " ++ hid_error h)%string))
          else (d', inl result)
      end
  end.

Definition drop_result (r : Z + PyExc) : unit + PyExc :=
  match r with inl _ => inl tt | inr e => inr e end.

(** [BeastXDevice.set_poll_rate]. *)
Definition set_poll_rate (d : Device) (hz : Z) : Device * (unit + PyExc) :=
  match table_get POLL_PACKETS hz with
  | None => (d, inr (ValueError ("Invalid polling rate: " ++ py_int_str hz)%string))
  | Some p => let (d', r) := send d p in (d', drop_result r)
  end.

(** [BeastXDevice.set_lod]. *)
Definition set_lod (d : Device) (lod : Z) : Device * (unit + PyExc) :=
  match table_get LOD_PACKETS lod with
  | None => (d, inr (ValueError ("Invalid LOD: " ++ py_int_str lod)%string))
  | Some p => let (d', r) := send d p in (d', drop_result r)
  end.

(* ---------------------------------------------------------------------------
   JSON documents and Python dicts (config persistence)
   --------------------------------------------------------------------------- *)

(** A Python [str] as [json.load] produces it: its sequence of Unicode
    code points. *)
Definition pystr := list Z.

(** A str literal of the module.  All of them are ASCII, so each byte of
    the Rocq string is one code point. *)
Definition u (s : string) : pystr :=
  map (fun c => Z.of_nat (nat_of_ascii c)) (list_ascii_of_string s).
Coercion u : string >-> pystr.

(** [==] on str: code point by code point. *)
Fixpoint pystr_eqb (a b : pystr) : bool :=
  match a, b with
  | [], [] => true
  | x :: a', y :: b' => (x =? y) && pystr_eqb a' b'
  | _, _ => false
  end.

(** What [json.load] returns for a config file (JSON numbers are
    modelled as integers; strings and object keys are str). *)
Inductive json :=
| JNull
| JBool (b : bool)
| JInt (z : Z)
| JStr (s : pystr)
| JArr (xs : list json)
| JObj (kvs : list (pystr * json)).

(** A Python dict in insertion order; keys are the hashable JSON values
    (None, bool, int, str). *)
Definition pydict := list (json * json).

Definition hashable (k : json) : bool :=
  match k with JNull | JBool _ | JInt _ | JStr _ => true | _ => false end.

(** Python [==] on hashable keys ([True == 1], [False == 0]). *)
Definition py_key_eq (a b : json) : bool :=
  match a, b with
  | JNull, JNull => true
  | JBool x, JBool y => Bool.eqb x y
  | JInt x, JInt y => x =? y
  | JBool x, JInt y | JInt y, JBool x => y =? (if x then 1 else 0)
  | JStr x, JStr y => pystr_eqb x y
  | _, _ => false
  end.

(** [d[k] = v]: an equal key keeps its position and its original key
    object, a new key is appended. *)
Fixpoint dict_set (d : pydict) (k v : json) : pydict :=
  match d with
  | [] => [(k, v)]
  | (k', v') :: t =>
      if py_key_eq k k' then (k', v) :: t else (k', v') :: dict_set t k v
  end.

Fixpoint dict_get (d : pydict) (k : json) : option json :=
  match d with
  | [] => None
  | (k', v) :: t => if py_key_eq k k' then Some v else dict_get t k
  end.

(** One element of the iterable given to [dict.update]: it must be an
    iterable of length 2 whose first item is hashable (a list, a string
    of two code points, or a two-key dict, which iterates its keys);
    otherwise update raises TypeError or ValueError ([None]). *)
Definition update_pair (e : json) : option (json * json) :=
  match e with
  | JArr [a; b] => if hashable a then Some (a, b) else None
  | JStr [c1; c2] => Some (JStr [c1], JStr [c2])
  | JObj [(k1, _); (k2, _)] => Some (JStr k1, JStr k2)
  | _ => None
  end.

Fixpoint update_pairs (d : pydict) (es : list json) : option pydict :=
  match es with
  | [] => Some d
  | e :: es' =>
      match update_pair e with
      | Some (k, v) => update_pairs (dict_set d k v) es'
      | None => None
      end
  end.

(** [merged.update(data)]; [None] when it raises.  A dict argument is
    merged key by key; any other iterable is read as a sequence of
    pairs (a string iterates its one-code-point strings, so only the
    empty string passes); numbers, booleans and null are not
    iterable. *)
Definition dict_update (d : pydict) (data : json) : option pydict :=
  match data with
  | JObj kvs => Some (fold_left (fun acc kv => dict_set acc (JStr (fst kv)) (snd kv)) kvs d)
  | JArr es => update_pairs d es
  | JStr [] => Some d
  | _ => None
  end.

(** The config file at [CONFIG_PATH], as [load_config] finds it: absent,
    present but failing to open or decode, present but not valid JSON,
    or holding a JSON document. *)
Inductive FileState :=
| FMissing
| FUnreadable
| FBadJson
| FDoc (j : json).

Definition DEFAULT_CONFIG : pydict := [
  (JStr "dpi_profiles", JArr [JInt 400; JInt 800; JInt 1600; JInt 3200]);
  (JStr "active_dpi", JInt 1);
  (JStr "poll_rate", JInt 1000);
  (JStr "lod", JInt 0)
].

(** [load_config]: any exception (open, [json.load], [update]) falls
    back to [dict(DEFAULT_CONFIG)].  The copy is shallow, so the
    returned [dpi_profiles] list is the one inside [DEFAULT_CONFIG];
    [load_config] is called once, at start-up, so that sharing is not
    observable and the dict is modelled by value. *)
Definition load_config (f : FileState) : pydict :=
  match f with
  | FDoc data =>
      match dict_update DEFAULT_CONFIG data with
      | Some merged => merged
      | None => DEFAULT_CONFIG
      end
  | _ => DEFAULT_CONFIG
  end.

(** [json.dump] turns dict keys into JSON object keys: strings as they
    are, ints through [str], [True]/[False]/[None] as
    [true]/[false]/[null]. *)
Definition json_key (k : json) : pystr :=
  match k with
  | JStr s => s
  | JInt z => u (py_int_str z)
  | JBool true => u "true"
  | JBool false => u "false"
  | _ => u "null"
  end.

(** [save_config]: the file afterwards holds the dumped dict. *)
Definition save_config (cfg : pydict) : FileState :=
  FDoc (JObj (map (fun kv => (json_key (fst kv), snd kv)) cfg)).

(* ---------------------------------------------------------------------------
   The application state (BeastXApp) and its setters
   --------------------------------------------------------------------------- *)

(** [self.config] with its four fields typed as the app uses them;
    [extra] holds any further keys the loaded file brought in, after the
    four (a merged dict keeps the defaults' key order first). *)
Record Config := mkConfig {
  dpi_profiles : list Z;
  active_dpi : Z;
  poll_rate : Z;
  lod : Z;
  extra : pydict
}.

Definition to_dict (c : Config) : pydict :=
  [(JStr "dpi_profiles", JArr (map JInt (dpi_profiles c)));
   (JStr "active_dpi", JInt (active_dpi c));
   (JStr "poll_rate", JInt (poll_rate c));
   (JStr "lod", JInt (lod c))] ++ extra c.

(** A call [self.toast(msg, ok)]. *)
Record Toast := mkToast { toast_msg : string; toast_ok : bool }.

(** The parts of [BeastXApp] the setters touch: the in-memory config,
    the config file, the device and the toasts shown so far. *)
Record App := mkApp {
  config : Config;
  file : FileState;
  device : Device;
  toasts : list Toast
}.

Definition with_config (a : App) (c : Config) : App :=
  mkApp c (file a) (device a) (toasts a).

(** [self.config[...] = ...; save_config(self.config)]. *)
Definition commit (a : App) (c : Config) : App :=
  mkApp c (save_config (to_dict c)) (device a) (toasts a).

Definition push_toast (a : App) (msg : string) (ok : bool) : App :=
  mkApp (config a) (file a) (device a) (toasts a ++ [mkToast msg ok]).

(** The work handed to [_send]: the device call run by the worker thread,
    and the success message. *)
Inductive Job :=
| JobPoll (hz : Z)
| JobLod (val : Z).

Record Pending := mkPending { job : Job; success_msg : string }.

Definition run_job (d : Device) (j : Job) : Device * (unit + PyExc) :=
  match j with
  | JobPoll hz => set_poll_rate d hz
  | JobLod v => set_lod d v
  end.

(** What a callback queued with [self.after(0, ...)] leaves when Tk's
    main loop runs it: the toast it shows, or the exception it raises,
    which Tk reports without touching the app. *)
Definition run_toast_callback (a : App) (cb : Toast + PyExc) : App :=
  match cb with
  | inl t => mkApp (config a) (file a) (device a) (toasts a ++ [t])
  | inr _ => a
  end.

(** The body of [_send]'s thread run to completion, then the callback it
    queued.  [after(0, ...)] only queues the lambda; the worker leaves its
    [except] block, deleting [e], before the main loop runs it.  The
    success lambda reads [success_msg], which stays bound; the failure
    lambda reads [e]. *)
Definition run_send (a : App) (p : Pending) : App :=
  let (d', r) := run_job (device a) (job p) in
  let cb := match r with
            | inl _ => inl (mkToast ("✓  " ++ success_msg p) true)
            | inr e =>
                match read_cell (end_handler (Bound e)) with
                | inl e' => inl (mkToast ("✗  " ++ py_str e') false)
                | inr ne => inr ne
                end
            end in
  run_toast_callback (mkApp (config a) (file a) d' (toasts a)) cb.

(** A Tk callback's outcome: the state reached, and the exception it
    raised, if any (Tk reports it and keeps the state as it was). *)
Definition Outcome := (App * option PyExc)%type.

(** [_set_poll]: store, save, restyle the buttons, then [_send]. *)
Definition _set_poll (a : App) (hz : Z) (note : string) : App * Pending :=
  let c := config a in
  let c' := mkConfig (dpi_profiles c) (active_dpi c) hz (lod c) (extra c) in
  (commit a c',
   mkPending (JobPoll hz) ("Polling rate → " ++ py_int_str hz ++ " Hz")%string).

(** [_set_lod]: store, save, rebuild the page, then [_send]. *)
Definition _set_lod (a : App) (val : Z) : App * Pending :=
  let c := config a in
  let c' := mkConfig (dpi_profiles c) (active_dpi c) (poll_rate c) val (extra c) in
  let size : string := if val =? 0 then "1mm" else "2mm" in
  (commit a c', mkPending (JobLod val) ("Lift-off → " ++ size)%string).

(** Python's [round] (half to even) of [n / d] for [d > 0], exact on
    integers. *)
Definition py_round_div (n d : Z) : Z :=
  let q := n / d in
  let r := n mod d in
  if 2 * r <? d then q
  else if d <? 2 * r then q + 1
  else if Z.even q then q else q + 1.

(** The value [_dpi_slide] stores for a slider value. *)
Definition slide_value (value : Z) : Z :=
  let v := py_round_div value 50 * 50 in
  Z.max 50 (Z.min 26000 v).

(** [_dpi_slide] (the slider value is taken to be an integer). *)
Definition _dpi_slide (a : App) (value idx : Z) : Outcome :=
  let c := config a in
  let v := slide_value value in
  match py_setitem (dpi_profiles c) idx v with
  | inr e => (a, Some e)
  | inl ps => (commit a (mkConfig ps (active_dpi c) (poll_rate c) (lod c) (extra c)), None)
  end.

(** [_set_active_dpi]: store, save, re-render, then the toast reads
    [dpi_profiles[idx]]. *)
Definition _set_active_dpi (a : App) (idx : Z) : Outcome :=
  let c := config a in
  let a' := commit a (mkConfig (dpi_profiles c) idx (poll_rate c) (lod c) (extra c)) in
  match py_getitem (dpi_profiles c) idx with
  | inr e => (a', Some e)
  | inl dpi =>
      (push_toast a' ("Profile " ++ py_int_str (idx + 1) ++ " active — "
                      ++ py_int_comma dpi ++ " DPI")%string true, None)
  end.

(** [_add_dpi]. *)
Definition _add_dpi (a : App) : Outcome :=
  let c := config a in
  if 5 <=? Z.of_nat (length (dpi_profiles c)) then (a, None)
  else (commit a (mkConfig (dpi_profiles c ++ [1600]) (active_dpi c)
                   (poll_rate c) (lod c) (extra c)), None).

(** [_del_dpi]. *)
Definition _del_dpi (a : App) (idx : Z) : Outcome :=
  let c := config a in
  if Z.of_nat (length (dpi_profiles c)) <=? 1
  then (push_toast a "Need at least one profile" false, None)
  else match py_pop (dpi_profiles c) idx with
       | inr e => (a, Some e)
       | inl ps =>
           let n := Z.of_nat (length ps) in
           let act := if n <=? active_dpi c then n - 1 else active_dpi c in
           (commit a (mkConfig ps act (poll_rate c) (lod c) (extra c)), None)
       end.

(* ---------------------------------------------------------------------------
   Device discovery and the connection lifecycle
   --------------------------------------------------------------------------- *)

(** An entry of [hid.enumerate(VID, PID)]; [.get] falls back to 0 for a
    missing usage page and to -1 for a missing interface number. *)
Record DevInfo := mkDevInfo {
  path : string;
  usage_page : option Z;
  interface_number : option Z
}.

Definition is_config_interface (info : DevInfo) : bool :=
  (match usage_page info with Some u => u | None => 0 end =? 0xFF00) ||
  (match interface_number info with Some n => n | None => -1 end =? 1).

(** [BeastXDevice.find]: the first entry of the first enumeration that
    looks like the config interface, else the first entry of a second
    enumeration, else None. *)
Definition find (first_scan second_scan : list DevInfo) : option DevInfo :=
  match List.find is_config_interface first_scan with
  | Some info => Some info
  | None => match second_scan with [] => None | info :: _ => Some info end
  end.

(** What the platform offers to [connect]: the two enumerations [find]
    makes, the object [hid.device()] returns, and whether [open_path]
    on a path raises. *)
Record ConnectEnv := mkEnv {
  scan1 : list DevInfo;
  scan2 : list DevInfo;
  fresh : HidHandle;
  open_path : string -> option PyExc
}.

Definition NOT_FOUND_MSG : string :=
  "Beast X not found. Make sure it's plugged in via USB.".

(** [BeastXDevice.connect]: [self._dev] is assigned the new device object
    before [open_path] runs, so it stays set when the open raises
    ([set_nonblocking] on an opened handle is taken not to fail). *)
Definition connect (d : Device) (env : ConnectEnv) : Device * (bool + PyExc) :=
  match find (scan1 env) (scan2 env) with
  | None => (d, inr (RuntimeError NOT_FOUND_MSG))
  | Some info =>
      let d1 := mkDevice (Some (fresh env)) (written d) in
      match open_path env (path info) with
      | Some e => (d1, inr e)
      | None => (d1, inl true)
      end
  end.

(** [BeastXDevice.disconnect]: errors from [close] are swallowed. *)
Definition disconnect (d : Device) : Device :=
  match dev d with
  | Some _ => mkDevice None (written d)
  | None => d
  end.

(** [BeastXDevice.connected]. *)
Definition connected (d : Device) : bool :=
  match dev d with Some _ => true | None => false end.

(** The app together with its status label ([● Connected] or not). *)
Record Shell := mkShell { shell : App; status_connected : bool }.

Definition with_device (a : App) (d : Device) : App :=
  mkApp (config a) (file a) d (toasts a).

(** [_set_status]. *)
Definition _set_status (s : Shell) (is_connected : bool) : Shell :=
  if is_connected
  then mkShell (push_toast (shell s) "Mouse connected" true) true
  else mkShell (shell s) false.

(** [_do_connect], the thread body started by [_toggle_connect], then
    the callback it queued.  As in [_send], the failure lambda
    [self.toast(str(e), ok=False)] runs after the handler has deleted
    [e]. *)
Definition _do_connect (s : Shell) (env : ConnectEnv) : Shell :=
  let (d', r) := connect (device (shell s)) env in
  let s1 := mkShell (with_device (shell s) d') (status_connected s) in
  match r with
  | inl _ => _set_status s1 true
  | inr e =>
      match read_cell (end_handler (Bound e)) with
      | inl e' => mkShell (push_toast (shell s1) (py_str e') false) (status_connected s1)
      | inr _ => s1
      end
  end.

(** [_toggle_connect], with the connecting thread run to completion. *)
Definition _toggle_connect (s : Shell) (env : ConnectEnv) : Shell :=
  if connected (device (shell s))
  then _set_status (mkShell (with_device (shell s) (disconnect (device (shell s))))
                            (status_connected s)) false
  else _do_connect s env.

(** [_auto_reconnect]: the same attempt, with failures kept silent. *)
Definition _auto_reconnect (s : Shell) (env : ConnectEnv) : Shell :=
  let (d', r) := connect (device (shell s)) env in
  let s1 := mkShell (with_device (shell s) d') (status_connected s) in
  match r with
  | inl _ => _set_status s1 true
  | inr _ => s1
  end.

(* ---------------------------------------------------------------------------
   Building the pages at start-up, and the info page
   --------------------------------------------------------------------------- *)

(** The rates listed by [_build_page_polling] (keys of [_rate_btns]). *)
Definition RATES : list Z := [125; 250; 500; 1000; 2000; 4000].

(** Why [_build_ui] can raise for a configuration whose four fields hold
    ints: [_build_page_polling] reads [_rate_btns[poll_rate]] (KeyError
    for another rate), then [_build_page_info] evaluates the active-DPI
    tile, [dpi_profiles[active_dpi]] (IndexError).  The DPI and lift-off
    pages cannot raise on such a configuration. *)
Inductive StartupFailure :=
| RateKeyError (hz : Z)
| ActiveIndexError (idx : Z).

Definition build_ui_failure (c : Config) : option StartupFailure :=
  if negb (existsb (Z.eqb (poll_rate c)) RATES) then Some (RateKeyError (poll_rate c))
  else match py_getitem (dpi_profiles c) (active_dpi c) with
       | inr _ => Some (ActiveIndexError (active_dpi c))
       | inl _ => None
       end.

(** The getters of the three info tiles. *)
Definition info_tile (c : Config) (key : string) : string + PyExc :=
  if String.eqb key "active_dpi" then
    match py_getitem (dpi_profiles c) (active_dpi c) with
    | inl dpi => inl (py_int_comma dpi)
    | inr e => inr e
    end
  else if String.eqb key "poll_rate" then inl (py_int_str (poll_rate c) ++ " Hz")%string
  else inl (if lod c =? 0 then "1mm" else "2mm").

Definition INFO_KEYS : list string := ["active_dpi"; "poll_rate"; "lod"].

Fixpoint label_texts (c : Config) (keys : list string) : list (string * string) + PyExc :=
  match keys with
  | [] => inl []
  | k :: ks =>
      match info_tile c k, label_texts c ks with
      | inl t, inl rest => inl ((k, t) :: rest)
      | inr e, _ | _, inr e => inr e
      end
  end.

(** [_build_page_info]: the [_info_labels] entries (key, shown text). *)
Definition _build_page_info (c : Config) : list (string * string) + PyExc :=
  label_texts c INFO_KEYS.

(** [_refresh_info]: it only re-reads the getters when ["info"] is one of
    the label keys. *)
Definition _refresh_info (c : Config) (labels : list (string * string))
  : list (string * string) + PyExc :=
  if existsb (String.eqb "info") (map fst labels)
  then label_texts c (map fst labels)
  else inl labels.

(** The rows of [RATES] in [_build_page_polling]: rate, period, note. *)
Definition RATE_ROWS : list (Z * string * string) := [
  (125,  "8ms",    "Power saving");
  (250,  "4ms",    "Balanced");
  (500,  "2ms",    "Gaming");
  (1000, "1ms",    "Standard competitive");
  (2000, "0.5ms",  "High-performance");
  (4000, "0.25ms", "Max — Beast X limit")
].

(** [self._rate_btns]: each rate of the table mapped to its note (the
    button object is left out). *)
Definition rate_btns : list (Z * string) :=
  map (fun row => let '(hz, _, note) := row in (hz, note)) RATE_ROWS.

Fixpoint rate_lookup (t : list (Z * string)) (k : Z) : option string :=
  match t with
  | [] => None
  | (k', v) :: t' => if k =? k' then Some v else rate_lookup t' k
  end.

(** [_build_page_polling]: the note label reads
    [self._rate_btns[self.config["poll_rate"]][1]]. *)
Definition _build_page_polling (c : Config) : string + PyExc :=
  match rate_lookup rate_btns (poll_rate c) with
  | Some note => inl note
  | None => inr (KeyError (py_int_str (poll_rate c)))
  end.

(** [_build_ui], the four pages in their order, with what each shows
    that can fail.  [_build_page_dpi] ([_render_dpi_rows]) and
    [_build_page_lod] only iterate the profiles and compare [i == active]
    and [lod == val], which cannot raise on int fields; the result is
    the rate note and the info labels. *)
Definition _build_ui (c : Config) : (string * list (string * string)) + PyExc :=
  match _build_page_polling c with
  | inr e => inr e
  | inl note =>
      match _build_page_info c with
      | inr e => inr e
      | inl labels => inl (note, labels)
      end
  end.



(* ---------------------------------------------------------------------------
   build.py: the dependency check
   --------------------------------------------------------------------------- *)

(** [str.replace('-', '_')]. *)
Fixpoint replace_dash (s : string) : string :=
  match s with
  | EmptyString => EmptyString
  | String c t => String (if Ascii.eqb c "-"%char then "_"%char else c) (replace_dash t)
  end.

(** [check(pkg)], given which module names import. *)
Definition check (importable : string -> bool) (pkg : string) : bool :=
  importable (replace_dash pkg).

Definition BUILD_DEPS : list string := ["customtkinter"; "hid"; "PyInstaller"].

(** The [missing] list built by the loop. *)
Definition missing_packages (importable : string -> bool) : list string :=
  filter (fun pkg =>
            let modname := if String.eqb pkg "PyInstaller" then "PyInstaller" else pkg in
            negb (check importable modname)) BUILD_DEPS.

(** [sep.join(xs)]. *)
Fixpoint py_join (sep : string) (xs : list string) : string :=
  match xs with
  | [] => ""
  | [x] => x
  | x :: t => (x ++ sep ++ py_join sep t)%string
  end.

(** A line break inside a Python string literal. *)
Definition nl : string := String (ascii_of_nat 10) EmptyString.

(** Where the script goes after the check: exit with a status and the
    printed lines, or on to PyInstaller. *)
Inductive BuildStep :=
| BuildExit (code : Z) (printed : list string)
| BuildContinue.

Definition dependency_gate (importable : string -> bool) : BuildStep :=
  match missing_packages importable with
  | [] => BuildContinue
  | missing =>
      BuildExit 1 [(nl ++ "⚠  Missing packages: " ++ py_join ", " missing)%string;
                   ("   Run: pip install " ++ py_join " " missing ++ nl)%string]
  end.

(* ---------------------------------------------------------------------------
   Vocabulary of the properties
   --------------------------------------------------------------------------- *)

(** The keys of [POLL_PACKETS]. *)
Definition POLL_KEYS : list Z := [125; 250; 500; 1000; 2000; 4000].

Definition bytes_ok (data : list Z) : bool :=
  forallb (fun b => (0 <=? b) && (b <=? 255)) data.

(** The default configuration as a typed record. *)
Definition default_cfg : Config := mkConfig [400; 800; 1600; 3200] 1 1000 0 [].

(** A device whose every write is refused. *)
Definition unplugged_handle : HidHandle := mkHandle (fun _ => -1) "device disconnected".

Definition app_connected : App :=
  mkApp default_cfg (save_config (to_dict default_cfg))
        (mkDevice (Some unplugged_handle) []) [].

(** The UI callbacks that mutate [self.config]; a polling-rate or
    lift-off change includes its [_send] worker run to completion. *)
Inductive Op :=
| OpSlide (value idx : Z)
| OpSetActive (idx : Z)
| OpAdd
| OpDel (idx : Z)
| OpPoll (hz : Z) (note : string)
| OpLod (val : Z).

Definition apply_op (a : App) (op : Op) : App :=
  match op with
  | OpSlide value idx => fst (_dpi_slide a value idx)
  | OpSetActive idx => fst (_set_active_dpi a idx)
  | OpAdd => fst (_add_dpi a)
  | OpDel idx => fst (_del_dpi a idx)
  | OpPoll hz note => let (a1, p) := _set_poll a hz note in run_send a1 p
  | OpLod val => let (a1, p) := _set_lod a val in run_send a1 p
  end.

(** [0 <= active_dpi < len(dpi_profiles)]. *)
Definition active_in_range (c : Config) : Prop :=
  0 <= active_dpi c < Z.of_nat (length (dpi_profiles c)).

(** [1 <= len(dpi_profiles) <= 5]. *)
Definition profile_count_ok (c : Config) : Prop :=
  (1 <= length (dpi_profiles c) <= 5)%nat.

(** The profile buttons only ever pass an index of an existing row. *)
Definition index_from_ui (op : Op) (c : Config) : Prop :=
  match op with
  | OpSetActive idx => 0 <= idx < Z.of_nat (length (dpi_profiles c))
  | _ => True
  end.

Definition app_five : App :=
  mkApp (mkConfig [400; 800; 1600; 3200; 6400] 4 1000 0 [])
        FMissing (mkDevice None []) [].

Definition app_one : App :=
  mkApp (mkConfig [800] 0 1000 0 []) FMissing (mkDevice None []) [].

(** The value a JSON object gives key [k] when merged over a dict in
    which [k] maps to [dflt]: its last binding of [k], else [dflt]. *)
Definition last_binding (kvs : list (pystr * json)) (k : json) (dflt : option json) : option json :=
  fold_left (fun acc kv => if py_key_eq k (JStr (fst kv)) then Some (snd kv) else acc) kvs dflt.

(** Nothing attached. *)
Definition no_device_env : ConnectEnv :=
  mkEnv [] [] unplugged_handle (fun _ => None).

Definition idle_shell : Shell := mkShell (with_device app_connected (mkDevice None [])) false.

(** A Beast X exposing its config interface at [/dev/hidraw3]. *)
Definition beastx_info : DevInfo := mkDevInfo "/dev/hidraw3" (Some 0xFF00) (Some 1).

(** A handle whose writes all go through. *)
Definition working_handle : HidHandle := mkHandle (fun b => Z.of_nat (length b)) "".

Definition plugged_env : ConnectEnv :=
  mkEnv [beastx_info] [beastx_info] working_handle (fun _ => None).

(** The device is there but opening it is refused. *)
Definition open_refused_env : ConnectEnv :=
  mkEnv [beastx_info] [beastx_info] working_handle
        (fun _ => Some (RuntimeError "open failed")).



(** The default configuration, saved, with a device that takes every
    write. *)
Definition app_working : App :=
  mkApp default_cfg (save_config (to_dict default_cfg))
        (mkDevice (Some working_handle) []) [].

(** A file holding a configuration whose active profile is the third. *)
Definition cfg_third : Config := mkConfig [400; 800; 1600; 3200] 2 1000 0 [].

Definition app_third : App :=
  mkApp cfg_third (save_config (to_dict cfg_third)) (mkDevice None []) [].

(** An environment where [hid] is not installed. *)
Definition no_hid (m : string) : bool := negb (String.eqb m "hid").

(* ===========================================================================
   Properties
   =========================================================================== *)

Lemma skipn_repeat_Z (n m : nat) (x : Z) :
  skipn n (repeat x m) = repeat x (m - n).
Proof.
  revert m; induction n as [|n IH]; intros [|m]; simpl; auto.
Qed.

(** A packet of at most 64 bytes is padded to itself followed by zeros. *)
Lemma pad_packet_shape (data : list Z) :
  bytes_ok data = true -> (length data <= REPORT_SIZE)%nat ->
  pad_packet data = inl (data ++ repeat 0 (REPORT_SIZE - length data)).
Proof.
  unfold pad_packet, bytes_ok; intros Hb _; rewrite Hb.
  rewrite skipn_repeat_Z; reflexivity.
Qed.

Lemma pad_packet_length (data buf : list Z) :
  (length data <= REPORT_SIZE)%nat -> pad_packet data = inl buf ->
  length buf = REPORT_SIZE.
Proof.
  unfold pad_packet; intros Hl H. rewrite skipn_repeat_Z in H.
  destruct (forallb _ data); [|discriminate H].
  assert (buf = data ++ repeat 0 (REPORT_SIZE - length data)) as -> by congruence.
  rewrite length_app, repeat_length; unfold REPORT_SIZE in *; lia.
Qed.

Lemma pad_packet_tail (data buf : list Z) (i : nat) :
  (length data <= i)%nat -> pad_packet data = inl buf -> nth i buf 1 = 0 \/ (REPORT_SIZE <= i)%nat.
Proof.
  unfold pad_packet; intros Hi H. rewrite skipn_repeat_Z in H.
  destruct (forallb _ data); [|discriminate H].
  assert (buf = data ++ repeat 0 (REPORT_SIZE - length data)) as -> by congruence.
  rewrite app_nth2 by lia.
  destruct (Nat.lt_ge_cases i REPORT_SIZE) as [Hlt|Hge]; [left|right; exact Hge].
  apply nth_repeat_lt; lia.
Qed.

Lemma poll_packet_facts (hz : Z) (p : list Z) :
  table_get POLL_PACKETS hz = Some p ->
  bytes_ok p = true /\ length p = 32%nat /\ nth 0 p 0 = 4.
Proof.
  unfold POLL_PACKETS; simpl.
  repeat match goal with
         | |- context [if ?c then _ else _] => destruct c
         end; intro H; inversion H; subst; repeat split; reflexivity.
Qed.

(** C2: for every poll-rate key of the catalog, the padded report is 64
    bytes long, starts with the command-class byte 0x04, and every byte
    after the stored literal prefix is zero. *)
Theorem poll_report_shape (hz : Z) :
  In hz POLL_KEYS ->
  exists p buf,
    table_get POLL_PACKETS hz = Some p /\ pad_packet p = inl buf /\
    length buf = 64%nat /\ nth 0 buf 0 = 4 /\
    (forall i, (length p <= i < 64)%nat -> nth i buf 1 = 0).
Proof.
  intros Hin.
  assert (Hget : exists p, table_get POLL_PACKETS hz = Some p).
  { unfold POLL_KEYS in Hin; simpl in Hin.
    repeat (destruct Hin as [<-|Hin]; [eexists; reflexivity|]); contradiction. }
  destruct Hget as [p Hp].
  destruct (poll_packet_facts hz p Hp) as (Hb & Hl & H0).
  exists p, (p ++ repeat 0 (REPORT_SIZE - length p)).
  assert (Hpad := pad_packet_shape p Hb ltac:(rewrite Hl; unfold REPORT_SIZE; lia)).
  split; [exact Hp|]. split; [exact Hpad|].
  split; [apply (pad_packet_length p); [rewrite Hl; unfold REPORT_SIZE; lia|exact Hpad]|].
  split.
  - rewrite app_nth1 by lia; exact H0.
  - intros i Hi.
    destruct (pad_packet_tail p _ i ltac:(lia) Hpad) as [Hz|Hge]; [exact Hz|].
    unfold REPORT_SIZE in Hge; lia.
Qed.

Lemma poll_report_shape_witness :
  In 4000 POLL_KEYS /\
  exists p buf,
    table_get POLL_PACKETS 4000 = Some p /\ pad_packet p = inl buf /\
    length buf = 64%nat /\ nth 0 buf 0 = 4 /\
    (forall i, (length p <= i < 64)%nat -> nth i buf 1 = 0).
Proof.
  split; [simpl; tauto|].
  apply (poll_report_shape 4000); simpl; tauto.
Defined.

(** C4: the lift-off 1 mm report (key 0) is the 1000 Hz polling report,
    so [set_lod 0] and [set_poll_rate 1000] perform the same write with
    the same outcome on every device. *)
Theorem lod0_is_poll1000 :
  table_get LOD_PACKETS 0 = table_get POLL_PACKETS 1000 /\
  table_get LOD_PACKETS 0 <> None /\
  (forall d, set_lod d 0 = set_poll_rate d 1000).
Proof.
  split; [reflexivity|]. split; [discriminate|].
  intro d; reflexivity.
Qed.

(** C8: a missing, unreadable or unparsable file loads as exactly the
    defaults (profiles [400, 800, 1600, 3200], active index 1, poll rate
    1000, lift-off 0); a file holding only [{"poll_rate": 500}] loads as
    the defaults with poll rate 500. *)
Theorem load_config_defaults :
  load_config FMissing = to_dict default_cfg /\
  load_config FUnreadable = to_dict default_cfg /\
  load_config FBadJson = to_dict default_cfg /\
  load_config (FDoc (JObj [(u "poll_rate", JInt 500)])) =
    to_dict (mkConfig [400; 800; 1600; 3200] 1 500 0 []).
Proof. repeat split; reflexivity. Qed.

(** C10: saving a configuration made of the four fields and loading it
    back gives the same dict, whatever the field values. *)
Theorem save_load_roundtrip (ps : list Z) (act pr l : Z) :
  load_config (save_config (to_dict (mkConfig ps act pr l []))) =
  to_dict (mkConfig ps act pr l []).
Proof. reflexivity. Qed.

Lemma lod_packet_facts (v : Z) (p : list Z) :
  table_get LOD_PACKETS v = Some p ->
  bytes_ok p = true /\ length p = 32%nat /\ nth 0 p 0 = 4.
Proof.
  unfold LOD_PACKETS; simpl.
  repeat match goal with
         | |- context [if ?c then _ else _] => destruct c
         end; intro H; inversion H; subst; repeat split; reflexivity.
Qed.

(** A write the handle rejects surfaces as [RuntimeError("Write failed:
    " + error())]. *)
Lemma send_write_fails (d : Device) (h : HidHandle) (p : list Z) :
  dev d = Some h -> (forall b, hid_write h b < 0) ->
  bytes_ok p = true -> (length p <= REPORT_SIZE)%nat ->
  snd (send d p) = inr (RuntimeError ("Write failed: " ++ hid_error h)%string).
Proof.
  intros Hd Hw Hb Hl. unfold send. rewrite Hd, (pad_packet_shape p Hb Hl).
  assert (E : (hid_write h (0 :: p ++ repeat 0 (REPORT_SIZE - length p)) <? 0) = true)
    by (apply Z.ltb_lt, Hw).
  rewrite E; reflexivity.
Qed.

(** The worker of [_send] touches neither the in-memory config nor the
    file: a failed hardware write rolls nothing back. *)
Lemma run_send_store (a : App) (p : Pending) :
  config (run_send a p) = config a /\ file (run_send a p) = file a.
Proof.
  unfold run_send. destruct (run_job (device a) (job p)) as [d' [r|e]];
    split; reflexivity.
Qed.

(** The device call's effect on the device is kept; a success adds the
    success toast, and a failure adds nothing: its callback raises
    NameError. *)
Lemma run_send_effect (a : App) (p : Pending) :
  device (run_send a p) = fst (run_job (device a) (job p)) /\
  toasts (run_send a p) =
  toasts a ++ match snd (run_job (device a) (job p)) with
              | inl _ => [mkToast ("✓  " ++ success_msg p) true]
              | inr _ => []
              end.
Proof.
  unfold run_send. destruct (run_job (device a) (job p)) as [d' [r|e]];
    simpl; rewrite ?app_nil_r; split; reflexivity.
Qed.

Lemma set_poll_rate_write_fails (d : Device) (h : HidHandle) (hz : Z) :
  dev d = Some h -> (forall b, hid_write h b < 0) -> In hz POLL_KEYS ->
  snd (set_poll_rate d hz) = inr (RuntimeError ("Write failed: " ++ hid_error h)%string).
Proof.
  intros Hd Hw Hin. unfold set_poll_rate.
  destruct (table_get POLL_PACKETS hz) as [p|] eqn:Hp.
  - destruct (poll_packet_facts hz p Hp) as (Hb & Hl & _).
    pose proof (send_write_fails d h p Hd Hw Hb ltac:(rewrite Hl; unfold REPORT_SIZE; lia)) as Hs.
    destruct (send d p) as [d' r]; simpl in *; subst; reflexivity.
  - exfalso. unfold POLL_KEYS in Hin; simpl in Hin.
    repeat (destruct Hin as [<-|Hin]; [discriminate Hp|]); contradiction.
Qed.

Lemma set_lod_write_fails (d : Device) (h : HidHandle) (v : Z) :
  dev d = Some h -> (forall b, hid_write h b < 0) -> In v [0; 1] ->
  snd (set_lod d v) = inr (RuntimeError ("Write failed: " ++ hid_error h)%string).
Proof.
  intros Hd Hw Hin. unfold set_lod.
  destruct (table_get LOD_PACKETS v) as [p|] eqn:Hp.
  - destruct (lod_packet_facts v p Hp) as (Hb & Hl & _).
    pose proof (send_write_fails d h p Hd Hw Hb ltac:(rewrite Hl; unfold REPORT_SIZE; lia)) as Hs.
    destruct (send d p) as [d' r]; simpl in *; subst; reflexivity.
  - exfalso. simpl in Hin.
    repeat (destruct Hin as [<-|Hin]; [discriminate Hp|]); contradiction.
Qed.

(** When the device rejects the write after a polling-rate or lift-off
    change, the configuration already stored and saved by the setter
    stays as it is (no rollback), and no toast follows: the worker's
    failure callback reads the deleted [e] and raises NameError. *)
Theorem send_failure_keeps_config (a : App) (h : HidHandle) (hz v : Z) (note : string) :
  dev (device a) = Some h -> (forall b, hid_write h b < 0) ->
  In hz POLL_KEYS -> In v [0; 1] ->
  (let (a1, p) := _set_poll a hz note in
   let a2 := run_send a1 p in
   poll_rate (config a1) = hz /\ file a1 = save_config (to_dict (config a1)) /\
   config a2 = config a1 /\ file a2 = file a1 /\ toasts a2 = toasts a1 /\
   snd (run_job (device a1) (job p)) =
     inr (RuntimeError ("Write failed: " ++ hid_error h)%string)) /\
  (let (a1, p) := _set_lod a v in
   let a2 := run_send a1 p in
   lod (config a1) = v /\ file a1 = save_config (to_dict (config a1)) /\
   config a2 = config a1 /\ file a2 = file a1 /\ toasts a2 = toasts a1 /\
   snd (run_job (device a1) (job p)) =
     inr (RuntimeError ("Write failed: " ++ hid_error h)%string)).
Proof.
  intros Hd Hw Hhz Hv. split.
  - destruct (_set_poll a hz note) as [a1 p] eqn:E.
    unfold _set_poll in E; injection E as <- <-.
    set (a1 := commit a _). set (p := mkPending _ _).
    destruct (run_send_store a1 p) as [Hc Hf].
    destruct (run_send_effect a1 p) as [_ Ht].
    assert (Hr : snd (run_job (device a1) (job p)) =
                 inr (RuntimeError ("Write failed: " ++ hid_error h)%string))
      by exact (set_poll_rate_write_fails _ h hz Hd Hw Hhz).
    rewrite Hr, app_nil_r in Ht.
    repeat split; assumption.
  - destruct (_set_lod a v) as [a1 p] eqn:E.
    unfold _set_lod in E; injection E as <- <-.
    set (a1 := commit a _). set (p := mkPending _ _).
    destruct (run_send_store a1 p) as [Hc Hf].
    destruct (run_send_effect a1 p) as [_ Ht].
    assert (Hr : snd (run_job (device a1) (job p)) =
                 inr (RuntimeError ("Write failed: " ++ hid_error h)%string))
      by exact (set_lod_write_fails _ h v Hd Hw Hv).
    rewrite Hr, app_nil_r in Ht.
    repeat split; assumption.
Qed.

Lemma send_failure_keeps_config_witness :
  dev (device app_connected) = Some unplugged_handle /\
  (forall b, hid_write unplugged_handle b < 0) /\
  ((let (a1, p) := _set_poll app_connected 2000 "High-performance" in
    let a2 := run_send a1 p in
    poll_rate (config a1) = 2000 /\ file a1 = save_config (to_dict (config a1)) /\
    config a2 = config a1 /\ file a2 = file a1 /\ toasts a2 = toasts a1 /\
    snd (run_job (device a1) (job p)) =
      inr (RuntimeError ("Write failed: " ++ hid_error unplugged_handle)%string)) /\
   (let (a1, p) := _set_lod app_connected 1 in
    let a2 := run_send a1 p in
    lod (config a1) = 1 /\ file a1 = save_config (to_dict (config a1)) /\
    config a2 = config a1 /\ file a2 = file a1 /\ toasts a2 = toasts a1 /\
    snd (run_job (device a1) (job p)) =
      inr (RuntimeError ("Write failed: " ++ hid_error unplugged_handle)%string))).
Proof.
  split; [reflexivity|]. split; [intro b; simpl; lia|].
  apply send_failure_keeps_config.
  - reflexivity.
  - intro b; simpl; lia.
  - simpl; tauto.
  - simpl; tauto.
Defined.

(** C1, evaluated: the default configuration on a device that rejects
    every write ("device disconnected"); the user picks 2000 Hz.  The
    new rate is stored and saved and stays so, the write fails with
    RuntimeError, and the failure callback raises NameError instead of
    showing the error: no toast at all. *)
Theorem send_failure_no_toast :
  let a1 := fst (_set_poll app_connected 2000 "High-performance") in
  let a2 := apply_op app_connected (OpPoll 2000 "High-performance") in
  snd (set_poll_rate (device a1) 2000) = inr (RuntimeError "Write failed: device disconnected") /\
  read_cell (end_handler (Bound (RuntimeError "Write failed: device disconnected"))) =
    inr (NameError "cannot access free variable 'e' where it is not associated with a value in enclosing scope") /\
  config a2 = mkConfig [400; 800; 1600; 3200] 1 2000 0 [] /\
  file a2 = save_config (to_dict (config a2)) /\
  toasts a2 = [].
Proof. repeat split. Qed.

Lemma poll_table_miss (hz : Z) :
  ~ In hz POLL_KEYS -> table_get POLL_PACKETS hz = None.
Proof.
  intro Hn. unfold POLL_KEYS in Hn; simpl in Hn. unfold POLL_PACKETS; simpl.
  repeat match goal with
         | |- context [hz =? ?k] => destruct (Z.eqb_spec hz k); [subst; tauto|]
         end; reflexivity.
Qed.

(** C3 (as the code has it): outside the six catalog rates the device
    method raises ValueError before any write, leaving the device as it
    was; the app setter [_set_poll] has no such check: it stores and
    saves the rate first, and when its worker then calls the device
    method, the ValueError comes before any write and nothing stored or
    saved is rolled back. *)
Theorem set_poll_invalid (a : App) (hz : Z) (note : string) :
  ~ In hz POLL_KEYS ->
  set_poll_rate (device a) hz =
    (device a, inr (ValueError ("Invalid polling rate: " ++ py_int_str hz)%string)) /\
  (let (a1, p) := _set_poll a hz note in
   config a1 = mkConfig (dpi_profiles (config a)) (active_dpi (config a)) hz
                        (lod (config a)) (extra (config a)) /\
   file a1 = save_config (to_dict (config a1)) /\
   snd (run_job (device a1) (job p)) =
     inr (ValueError ("Invalid polling rate: " ++ py_int_str hz)%string) /\
   device (run_send a1 p) = device a1 /\
   config (run_send a1 p) = config a1 /\ file (run_send a1 p) = file a1).
Proof.
  intro Hn.
  assert (Hs : set_poll_rate (device a) hz =
    (device a, inr (ValueError ("Invalid polling rate: " ++ py_int_str hz)%string)))
    by (unfold set_poll_rate; rewrite (poll_table_miss hz Hn); reflexivity).
  split; [exact Hs|].
  destruct (run_send_effect (fst (_set_poll a hz note)) (snd (_set_poll a hz note))) as [Hd _].
  destruct (run_send_store (fst (_set_poll a hz note)) (snd (_set_poll a hz note))) as [Hc Hf].
  simpl in Hd, Hc, Hf |- *. rewrite Hs in Hd |- *.
  repeat split; assumption.
Qed.

Lemma set_poll_invalid_witness :
  ~ In 300 POLL_KEYS /\
  set_poll_rate (device app_connected) 300 =
    (device app_connected, inr (ValueError ("Invalid polling rate: " ++ py_int_str 300)%string)) /\
  (let (a1, p) := _set_poll app_connected 300 "" in
   config a1 = mkConfig (dpi_profiles (config app_connected)) (active_dpi (config app_connected)) 300
                        (lod (config app_connected)) (extra (config app_connected)) /\
   file a1 = save_config (to_dict (config a1)) /\
   snd (run_job (device a1) (job p)) =
     inr (ValueError ("Invalid polling rate: " ++ py_int_str 300)%string) /\
   device (run_send a1 p) = device a1 /\
   config (run_send a1 p) = config a1 /\ file (run_send a1 p) = file a1).
Proof.
  assert (H : ~ In 300 POLL_KEYS) by (unfold POLL_KEYS; simpl; lia).
  split; [exact H|]. apply (set_poll_invalid app_connected 300 ""); exact H.
Defined.

(** C3 counterexample: 300 Hz is not a catalog rate, yet [_set_poll]
    changes both the in-memory and the saved configuration. *)
Lemma set_poll_invalid_changes_config :
  ~ In 300 POLL_KEYS /\
  (let (a1, _) := _set_poll app_connected 300 "" in
   poll_rate (config a1) = 300 /\
   config a1 <> config app_connected /\ file a1 <> file app_connected).
Proof.
  split; [unfold POLL_KEYS; simpl; lia|].
  simpl. split; [reflexivity|]. split; discriminate.
Qed.

(* ---------------------------------------------------------------------------
   Python list operations
   --------------------------------------------------------------------------- *)

Lemma py_norm_index_lt {A} (l : list A) (i : Z) (k : nat) :
  py_norm_index l i = Some k -> (k < length l)%nat.
Proof.
  unfold py_norm_index.
  destruct ((0 <=? i) && (i <? Z.of_nat (length l))) eqn:E1.
  - intro H; injection H as <-. apply andb_prop in E1 as [E1 E2].
    apply Z.leb_le in E1; apply Z.ltb_lt in E2; lia.
  - destruct ((- Z.of_nat (length l) <=? i) && (i <? 0)) eqn:E2; [|discriminate].
    intro H; injection H as <-. apply andb_prop in E2 as [E2 E3].
    apply Z.leb_le in E2; apply Z.ltb_lt in E3; lia.
Qed.

Lemma py_norm_index_nonneg {A} (l : list A) (i : Z) :
  0 <= i < Z.of_nat (length l) -> py_norm_index l i = Some (Z.to_nat i).
Proof.
  intros [H1 H2]. unfold py_norm_index.
  rewrite (proj2 (Z.leb_le 0 i) H1), (proj2 (Z.ltb_lt _ _) H2); reflexivity.
Qed.

Lemma py_norm_index_some_iff {A} (l : list A) (i : Z) :
  (exists k, py_norm_index l i = Some k) <->
  - Z.of_nat (length l) <= i < Z.of_nat (length l).
Proof.
  unfold py_norm_index. split.
  - intros [k Hk].
    destruct ((0 <=? i) && (i <? Z.of_nat (length l))) eqn:E1.
    + apply andb_prop in E1 as [E1 E2]; apply Z.leb_le in E1; apply Z.ltb_lt in E2; lia.
    + destruct ((- Z.of_nat (length l) <=? i) && (i <? 0)) eqn:E2; [|discriminate].
      apply andb_prop in E2 as [E2 E3]; apply Z.leb_le in E2; apply Z.ltb_lt in E3; lia.
  - intros [H1 H2].
    destruct (Z.leb_spec 0 i).
    + rewrite (proj2 (Z.ltb_lt _ _) H2); simpl; eauto.
    + simpl. rewrite (proj2 (Z.leb_le _ _) H1), (proj2 (Z.ltb_lt i 0) H); simpl; eauto.
Qed.

Lemma py_getitem_ok_iff {A} (l : list A) (i : Z) :
  (exists x, py_getitem l i = inl x) <->
  - Z.of_nat (length l) <= i < Z.of_nat (length l).
Proof.
  rewrite <- py_norm_index_some_iff. unfold py_getitem. split.
  - intros [x Hx]. destruct (py_norm_index l i) as [k|]; [eauto|discriminate].
  - intros [k Hk]. rewrite Hk.
    destruct (nth_error l k) as [x|] eqn:E; [eauto|].
    apply nth_error_None in E. apply py_norm_index_lt in Hk. lia.
Qed.

Lemma length_replace_nth {A} (l : list A) (k : nat) (x : A) :
  length (replace_nth l k x) = length l.
Proof.
  revert k; induction l as [|y t IH]; intros [|k]; simpl; auto.
Qed.

Lemma nth_error_replace_nth {A} (l : list A) (k j : nat) (x : A) :
  (k < length l)%nat ->
  nth_error (replace_nth l k x) j = if Nat.eqb j k then Some x else nth_error l j.
Proof.
  revert k j; induction l as [|y t IH]; intros [|k] [|j] Hk; simpl in *; try lia; auto.
  apply IH; lia.
Qed.

Lemma length_remove_nth {A} (l : list A) (k : nat) :
  (k < length l)%nat -> length (remove_nth l k) = (length l - 1)%nat.
Proof.
  revert k; induction l as [|y t IH]; intros [|k] Hk; simpl in *; try lia.
  rewrite IH by lia. lia.
Qed.

Lemma py_setitem_length {A} (l l' : list A) (i : Z) (x : A) :
  py_setitem l i x = inl l' -> length l' = length l.
Proof.
  unfold py_setitem. destruct (py_norm_index l i); [|discriminate].
  intro H; injection H as <-. apply length_replace_nth.
Qed.

Lemma py_pop_length {A} (l l' : list A) (i : Z) :
  py_pop l i = inl l' -> length l' = (length l - 1)%nat.
Proof.
  unfold py_pop. destruct (py_norm_index l i) as [k|] eqn:E; [|discriminate].
  intro H; injection H as <-. apply length_remove_nth, (py_norm_index_lt l i), E.
Qed.

(* ---------------------------------------------------------------------------
   Profile list mutations
   --------------------------------------------------------------------------- *)

(** What each operation does to the profile list and the active index. *)
Lemma apply_op_shape (a : App) (op : Op) :
  let c := config a in
  let c' := config (apply_op a op) in
  match op with
  | OpSlide _ _ => length (dpi_profiles c') = length (dpi_profiles c) /\ active_dpi c' = active_dpi c
  | OpSetActive idx => dpi_profiles c' = dpi_profiles c /\ active_dpi c' = idx
  | OpAdd =>
      (if 5 <=? Z.of_nat (length (dpi_profiles c))
       then dpi_profiles c' = dpi_profiles c
       else dpi_profiles c' = dpi_profiles c ++ [1600]) /\ active_dpi c' = active_dpi c
  | OpDel _ =>
      c' = c \/
      ((2 <= length (dpi_profiles c))%nat /\
       length (dpi_profiles c') = (length (dpi_profiles c) - 1)%nat /\
       active_dpi c' = (if Z.of_nat (length (dpi_profiles c')) <=? active_dpi c
                        then Z.of_nat (length (dpi_profiles c')) - 1 else active_dpi c))
  | OpPoll _ _ | OpLod _ => dpi_profiles c' = dpi_profiles c /\ active_dpi c' = active_dpi c
  end.
Proof.
  destruct op as [value idx|idx| |idx|hz note|val]; simpl.
  - unfold _dpi_slide.
    destruct (py_setitem (dpi_profiles (config a)) idx (slide_value value)) as [ps|e] eqn:E;
      simpl; [split; [apply (py_setitem_length _ _ _ _ E)|reflexivity]|auto].
  - unfold _set_active_dpi.
    destruct (py_getitem (dpi_profiles (config a)) idx); simpl; auto.
  - unfold _add_dpi.
    destruct (5 <=? Z.of_nat (length (dpi_profiles (config a)))); simpl; auto.
  - unfold _del_dpi.
    destruct (Z.of_nat (length (dpi_profiles (config a))) <=? 1) eqn:E1; simpl; [left; reflexivity|].
    destruct (py_pop (dpi_profiles (config a)) idx) as [ps|e] eqn:E2; simpl; [right|left; reflexivity].
    apply Z.leb_gt in E1.
    split; [lia|]. split; [apply (py_pop_length _ _ _ E2)|reflexivity].
  - rewrite (proj1 (run_send_store _ _)); simpl; auto.
  - rewrite (proj1 (run_send_store _ _)); simpl; auto.
Qed.

(** C5 (as the code has it): [_set_active_dpi] checks nothing: for every
    index it stores it as [active_dpi] and saves before anything can
    fail.  Called with the index of an existing row, as the profile
    buttons do, it keeps [0 <= active_dpi < len(dpi_profiles)], and so
    does every other mutation ([_dpi_slide], [_add_dpi], [_del_dpi],
    [_set_poll], [_set_lod]) for any argument. *)
Theorem active_dpi_in_range (a : App) (op : Op) (idx : Z) :
  active_in_range (config a) -> index_from_ui op (config a) ->
  active_in_range (config (apply_op a op)) /\
  (let (a', e) := _set_active_dpi a idx in
   active_dpi (config a') = idx /\
   dpi_profiles (config a') = dpi_profiles (config a) /\
   file a' = save_config (to_dict (config a')) /\
   (e = None <->
    - Z.of_nat (length (dpi_profiles (config a))) <= idx < Z.of_nat (length (dpi_profiles (config a)))) /\
   (e = None \/ e = Some (IndexError "list index out of range"))).
Proof.
  intros Hinv Hui. split.
  - pose proof (apply_op_shape a op) as Hs. cbv zeta in Hs.
    revert Hs; generalize (config (apply_op a op)); intros c' Hs.
    unfold active_in_range in *.
    destruct op as [value i|i| |i|hz note|val]; simpl in Hs, Hui.
    + destruct Hs as [-> ->]; exact Hinv.
    + destruct Hs as [-> ->]; exact Hui.
    + destruct Hs as [Hl ->].
      destruct (5 <=? _); rewrite Hl; [exact Hinv|].
      rewrite length_app; simpl; lia.
    + destruct Hs as [-> | (H2 & Hl & ->)]; [exact Hinv|].
      rewrite Hl.
      destruct (Z.leb_spec (Z.of_nat (length (dpi_profiles (config a)) - 1)) (active_dpi (config a)));
        lia.
    + destruct Hs as [-> ->]; exact Hinv.
    + destruct Hs as [-> ->]; exact Hinv.
  - unfold _set_active_dpi.
    destruct (py_getitem (dpi_profiles (config a)) idx) as [x|e] eqn:E;
      (split; [reflexivity|]); (split; [reflexivity|]); (split; [reflexivity|]);
      rewrite <- py_getitem_ok_iff.
    + split; [split; [eauto|reflexivity]|left; reflexivity].
    + split; [split; [discriminate|intros [x Hx]; congruence]|right].
      revert E. unfold py_getitem.
      destruct (py_norm_index (dpi_profiles (config a)) idx) as [k|];
        [destruct (nth_error (dpi_profiles (config a)) k)|]; congruence.
Qed.

Lemma active_dpi_in_range_witness :
  active_in_range (config app_connected) /\
  index_from_ui (OpSetActive 3) (config app_connected) /\
  active_in_range (config (apply_op app_connected (OpSetActive 3))) /\
  (let (a', e) := _set_active_dpi app_connected (-1) in
   active_dpi (config a') = -1 /\
   dpi_profiles (config a') = dpi_profiles (config app_connected) /\
   file a' = save_config (to_dict (config a')) /\
   (e = None <->
    - Z.of_nat (length (dpi_profiles (config app_connected))) <= -1 <
      Z.of_nat (length (dpi_profiles (config app_connected)))) /\
   (e = None \/ e = Some (IndexError "list index out of range"))).
Proof.
  assert (H1 : active_in_range (config app_connected)) by (unfold active_in_range; simpl; lia).
  assert (H2 : index_from_ui (OpSetActive 3) (config app_connected)) by (simpl; lia).
  split; [exact H1|]. split; [exact H2|].
  apply (active_dpi_in_range app_connected (OpSetActive 3) (-1) H1 H2).
Defined.

(** C5 counterexample: index -1 is not an index of the four-profile
    list, yet [_set_active_dpi] raises nothing and saves
    [active_dpi = -1]; index 4 is saved as well, and only the toast that
    follows raises IndexError. *)
Lemma set_active_dpi_unchecked :
  (let (a', e) := _set_active_dpi app_connected (-1) in
   e = None /\ active_dpi (config a') = -1 /\
   file a' = save_config (to_dict (config a')) /\
   ~ active_in_range (config a')) /\
  (let (a', e) := _set_active_dpi app_connected 4 in
   e = Some (IndexError "list index out of range") /\ active_dpi (config a') = 4 /\
   file a' = save_config (to_dict (config a')) /\
   ~ active_in_range (config a')).
Proof.
  split; simpl; (split; [reflexivity|]); (split; [reflexivity|]);
    (split; [reflexivity|]); unfold active_in_range; simpl; lia.
Qed.

(** C7 (as the code has it): with five profiles [_add_dpi] returns at
    once, with no error, no toast and no save; with one profile
    [_del_dpi] only shows the failure toast "Need at least one profile";
    and every mutation keeps [1 <= len(dpi_profiles) <= 5]. *)
Theorem profile_count_bounded (a : App) (op : Op) (idx : Z) :
  profile_count_ok (config a) ->
  profile_count_ok (config (apply_op a op)) /\
  (length (dpi_profiles (config a)) = 5%nat -> _add_dpi a = (a, None)) /\
  (length (dpi_profiles (config a)) = 1%nat ->
   _del_dpi a idx = (push_toast a "Need at least one profile" false, None)).
Proof.
  intros Hok. split; [|split].
  - pose proof (apply_op_shape a op) as Hs. cbv zeta in Hs.
    revert Hs; generalize (config (apply_op a op)); intros c' Hs.
    unfold profile_count_ok in *.
    destruct op as [value i|i| |i|hz note|val]; simpl in Hs.
    + destruct Hs as [-> _]; exact Hok.
    + destruct Hs as [-> _]; exact Hok.
    + destruct Hs as [Hl _].
      destruct (Z.leb_spec 5 (Z.of_nat (length (dpi_profiles (config a))))); rewrite Hl;
        [exact Hok|].
      rewrite length_app; simpl; lia.
    + destruct Hs as [-> | (H2 & Hl & _)]; [exact Hok|]. rewrite Hl; lia.
    + destruct Hs as [-> _]; exact Hok.
    + destruct Hs as [-> _]; exact Hok.
  - intro H5. unfold _add_dpi. rewrite H5. reflexivity.
  - intro H1. unfold _del_dpi. rewrite H1. reflexivity.
Qed.

Lemma profile_count_bounded_witness :
  profile_count_ok (config app_five) /\
  profile_count_ok (config (apply_op app_five OpAdd)) /\
  (length (dpi_profiles (config app_five)) = 5%nat -> _add_dpi app_five = (app_five, None)) /\
  (length (dpi_profiles (config app_five)) = 1%nat ->
   _del_dpi app_five 0 = (push_toast app_five "Need at least one profile" false, None)).
Proof.
  assert (H : profile_count_ok (config app_five)) by (unfold profile_count_ok; simpl; lia).
  split; [exact H|].
  apply (profile_count_bounded app_five OpAdd 0 H).
Defined.

(** C7 counterexample: adding a sixth profile does not fail: [_add_dpi]
    on five profiles raises nothing and shows no toast; the state is
    returned untouched. *)
Lemma add_dpi_full_is_silent :
  length (dpi_profiles (config app_five)) = 5%nat /\
  _add_dpi app_five = (app_five, None) /\
  toasts (fst (_add_dpi app_five)) = [].
Proof. repeat split. Qed.

(* ---------------------------------------------------------------------------
   DPI slider rounding
   --------------------------------------------------------------------------- *)

Lemma py_round_div_50 (n : Z) :
  (2 * (n mod 50) <= 50 /\ py_round_div n 50 = n / 50) \/
  (50 <= 2 * (n mod 50) /\ py_round_div n 50 = n / 50 + 1).
Proof.
  unfold py_round_div.
  destruct (Z.ltb_spec (2 * (n mod 50)) 50); [left; lia|].
  destruct (Z.ltb_spec 50 (2 * (n mod 50))); [right; lia|].
  destruct (Z.even (n / 50)); [left|right]; lia.
Qed.

Lemma slide_value_as_steps (value : Z) :
  slide_value value = 50 * Z.max 1 (Z.min 520 (py_round_div value 50)).
Proof. unfold slide_value; lia. Qed.

(** The stored value is a multiple of 50 in [50, 26000], and no such
    multiple is closer to the slider value. *)
Lemma slide_value_nearest (value : Z) :
  slide_value value mod 50 = 0 /\ 50 <= slide_value value <= 26000 /\
  (forall m, m mod 50 = 0 -> 50 <= m <= 26000 ->
   Z.abs (value - slide_value value) <= Z.abs (value - m)).
Proof.
  rewrite slide_value_as_steps.
  split; [rewrite Z.mul_comm; apply Z_mod_mult|].
  split; [lia|].
  intros m Hm Hr.
  pose proof (Z.div_mod value 50 ltac:(lia)) as Hv.
  pose proof (Z.mod_pos_bound value 50 ltac:(lia)) as Hb.
  pose proof (Z.div_mod m 50 ltac:(lia)) as Hmd. rewrite Hm, Z.add_0_r in Hmd.
  destruct (py_round_div_50 value) as [[H1 ->]|[H1 ->]];
    set (q := value / 50) in *; set (r := value mod 50) in *;
    set (j := m / 50) in *; lia.
Qed.

(** C6: for an index of an existing profile, [_dpi_slide] stores the
    slider value clamped into [50, 26000] and rounded to a nearest
    multiple of 50 at that index, leaves the other profiles alone and
    saves; 137 gives 150, 40 gives 50, 30000 gives 26000.  Slider values
    are modelled as integers, for which the float quotient
    [float(value) / 50] rounds as the exact one does. *)
Theorem dpi_slide_nearest (a : App) (value idx : Z) :
  0 <= idx < Z.of_nat (length (dpi_profiles (config a))) ->
  (let (a', e) := _dpi_slide a value idx in
   e = None /\
   nth_error (dpi_profiles (config a')) (Z.to_nat idx) = Some (slide_value value) /\
   (forall j, j <> Z.to_nat idx ->
    nth_error (dpi_profiles (config a')) j = nth_error (dpi_profiles (config a)) j) /\
   file a' = save_config (to_dict (config a'))) /\
  slide_value value mod 50 = 0 /\ 50 <= slide_value value <= 26000 /\
  (forall m, m mod 50 = 0 -> 50 <= m <= 26000 ->
   Z.abs (value - slide_value value) <= Z.abs (value - m)) /\
  slide_value 137 = 150 /\ slide_value 40 = 50 /\ slide_value 30000 = 26000.
Proof.
  intros Hidx.
  destruct (slide_value_nearest value) as (Hmod & Hrange & Hnear).
  split; [|split; [exact Hmod|split; [exact Hrange|split; [exact Hnear|]]]];
    [|split; [reflexivity|split; reflexivity]].
  unfold _dpi_slide, py_setitem.
  rewrite (py_norm_index_nonneg _ _ Hidx).
  assert (Hk : (Z.to_nat idx < length (dpi_profiles (config a)))%nat) by lia.
  split; [reflexivity|]. split; [|split].
  - simpl. rewrite nth_error_replace_nth by exact Hk. rewrite Nat.eqb_refl; reflexivity.
  - intros j Hj. simpl. rewrite nth_error_replace_nth by exact Hk.
    destruct (Nat.eqb_spec j (Z.to_nat idx)); [contradiction|reflexivity].
  - reflexivity.
Qed.

Lemma dpi_slide_nearest_witness :
  0 <= 2 < Z.of_nat (length (dpi_profiles (config app_connected))) /\
  (let (a', e) := _dpi_slide app_connected 137 2 in
   e = None /\
   nth_error (dpi_profiles (config a')) (Z.to_nat 2) = Some (slide_value 137) /\
   (forall j, j <> Z.to_nat 2 ->
    nth_error (dpi_profiles (config a')) j = nth_error (dpi_profiles (config app_connected)) j) /\
   file a' = save_config (to_dict (config a'))) /\
  slide_value 137 mod 50 = 0 /\ 50 <= slide_value 137 <= 26000 /\
  (forall m, m mod 50 = 0 -> 50 <= m <= 26000 ->
   Z.abs (137 - slide_value 137) <= Z.abs (137 - m)) /\
  slide_value 137 = 150 /\ slide_value 40 = 50 /\ slide_value 30000 = 26000.
Proof.
  assert (H : 0 <= 2 < Z.of_nat (length (dpi_profiles (config app_connected)))) by (simpl; lia).
  split; [exact H|].
  apply (dpi_slide_nearest app_connected 137 2 H).
Defined.

(* ---------------------------------------------------------------------------
   Dict merging in load_config
   --------------------------------------------------------------------------- *)

Lemma pystr_eqb_eq (a b : pystr) : pystr_eqb a b = true <-> a = b.
Proof.
  revert b; induction a as [|x a IH]; intros [|y b]; simpl;
    try (split; [discriminate|congruence]); [tauto|].
  rewrite andb_true_iff, Z.eqb_eq, IH. split; [intros [-> ->]; reflexivity|].
  intro H; injection H as -> ->; tauto.
Qed.

Lemma pystr_eqb_refl (a : pystr) : pystr_eqb a a = true.
Proof. apply pystr_eqb_eq; reflexivity. Qed.

Lemma pystr_eqb_sym (a b : pystr) : pystr_eqb a b = pystr_eqb b a.
Proof.
  destruct (pystr_eqb a b) eqn:E1, (pystr_eqb b a) eqn:E2; try reflexivity.
  - apply pystr_eqb_eq in E1; subst. rewrite pystr_eqb_refl in E2; discriminate.
  - apply pystr_eqb_eq in E2; subst. rewrite pystr_eqb_refl in E1; discriminate.
Qed.

Lemma py_key_eq_sym (a b : json) : py_key_eq a b = py_key_eq b a.
Proof.
  destruct a, b; simpl; try reflexivity.
  - destruct b, b0; reflexivity.
  - apply Z.eqb_sym.
  - apply pystr_eqb_sym.
Qed.

Ltac key_eq_facts :=
  repeat match goal with
         | H : (_ =? _) = true |- _ => apply Z.eqb_eq in H
         | H : Bool.eqb _ _ = true |- _ => apply Bool.eqb_prop in H
         | H : pystr_eqb _ _ = true |- _ => apply pystr_eqb_eq in H
         end; subst.

Lemma py_key_eq_trans (a b c : json) :
  py_key_eq a b = true -> py_key_eq b c = true -> py_key_eq a c = true.
Proof.
  intros H1 H2.
  destruct a, b; simpl in H1; try discriminate;
  destruct c; simpl in H2 |- *; try discriminate; key_eq_facts;
  repeat match goal with b : bool |- _ => destruct b end;
  simpl in *; try discriminate;
  first [ reflexivity | apply Bool.eqb_refl | apply Z.eqb_refl | apply pystr_eqb_refl
        | apply Z.eqb_eq; lia ].
Qed.

Lemma dict_get_set (d : pydict) (k v k' : json) :
  dict_get (dict_set d k v) k' = if py_key_eq k' k then Some v else dict_get d k'.
Proof.
  induction d as [|[k0 v0] t IH]; simpl.
  - destruct (py_key_eq k' k); reflexivity.
  - destruct (py_key_eq k k0) eqn:E; simpl.
    + destruct (py_key_eq k' k) eqn:E1.
      * rewrite (py_key_eq_trans _ _ _ E1 E); reflexivity.
      * destruct (py_key_eq k' k0) eqn:E2; [|reflexivity].
        rewrite py_key_eq_sym in E.
        rewrite (py_key_eq_trans _ _ _ E2 E) in E1; discriminate.
    + rewrite IH.
      destruct (py_key_eq k' k0) eqn:E2, (py_key_eq k' k) eqn:E1; try reflexivity.
      rewrite py_key_eq_sym in E1.
      rewrite (py_key_eq_trans _ _ _ E1 E2) in E; discriminate.
Qed.

Lemma dict_get_merge (kvs : list (pystr * json)) (d : pydict) (k : json) :
  dict_get (fold_left (fun acc kv => dict_set acc (JStr (fst kv)) (snd kv)) kvs d) k =
  last_binding kvs k (dict_get d k).
Proof.
  revert d; induction kvs as [|[s v] t IH]; intro d; simpl; [reflexivity|].
  rewrite IH, dict_get_set. reflexivity.
Qed.

Lemma last_binding_some (kvs : list (pystr * json)) (k : json) (dflt : option json) :
  (dflt <> None \/ exists s v, In (s, v) kvs /\ py_key_eq k (JStr s) = true) ->
  last_binding kvs k dflt <> None.
Proof.
  revert dflt; induction kvs as [|[s v] t IH]; intros dflt H; simpl.
  - destruct H as [H|(s & v & [] & _)]; exact H.
  - apply IH. destruct H as [H|(s' & v' & [E|Hin] & Hk)].
    + left. destruct (py_key_eq k (JStr s)); [discriminate|exact H].
    + injection E as -> ->. left. rewrite Hk. discriminate.
    + right. exists s', v'. split; assumption.
Qed.

(** C9 (as the code has it): for a file holding a JSON object, [load_config]
    is the defaults updated with that object: every key of the file,
    Configuration field or not, maps to the file's last value for it,
    and only keys absent from the file keep their default. *)
Theorem load_config_merges_object (kvs : list (pystr * json)) (k : json) :
  dict_get (load_config (FDoc (JObj kvs))) k =
    last_binding kvs k (dict_get DEFAULT_CONFIG k) /\
  (forall s v, In (s, v) kvs -> dict_get (load_config (FDoc (JObj kvs))) (JStr s) <> None).
Proof.
  simpl load_config. split; [apply dict_get_merge|].
  intros s v Hin. rewrite dict_get_merge.
  apply last_binding_some. right. exists s, v. split; [exact Hin|].
  simpl. apply pystr_eqb_refl.
Qed.

(** C9 counterexample: a file [{"foo": 1}] parses, and the loaded config
    carries [foo] as a fifth key next to the four fields. *)
Lemma load_config_keeps_unknown_key :
  load_config (FDoc (JObj [(u "foo", JInt 1)])) = to_dict default_cfg ++ [(JStr "foo", JInt 1)] /\
  dict_get (load_config (FDoc (JObj [(u "foo", JInt 1)]))) (JStr "foo") = Some (JInt 1) /\
  length (load_config (FDoc (JObj [(u "foo", JInt 1)]))) = 5%nat.
Proof. repeat split. Qed.

(* ---------------------------------------------------------------------------
   Device discovery and the connection lifecycle
   --------------------------------------------------------------------------- *)

Lemma list_find_split {A} (f : A -> bool) (l : list A) (x : A) :
  List.find f l = Some x ->
  exists pre post, l = pre ++ x :: post /\ f x = true /\ (forall j, In j pre -> f j = false).
Proof.
  induction l as [|y t IH]; simpl; [discriminate|].
  destruct (f y) eqn:Hy.
  - intro H; injection H as <-. exists [], t. split; [reflexivity|]. split; [exact Hy|].
    intros j [].
  - intro H. destruct (IH H) as (pre & post & -> & Hx & Hpre).
    exists (y :: pre), post. split; [reflexivity|]. split; [exact Hx|].
    intros j [<-|Hj]; [exact Hy|apply Hpre, Hj].
Qed.

(** [find], given the same enumeration twice: it finds nothing only when
    nothing is attached, and otherwise returns the first entry that
    looks like the config interface, or the first entry when none
    does. *)
Theorem find_prefers_config_interface (e : list DevInfo) :
  (find e e = None <-> e = []) /\
  (forall i, find e e = Some i ->
   exists pre post, e = pre ++ i :: post /\
     ((is_config_interface i = true /\ forall j, In j pre -> is_config_interface j = false) \/
      (pre = [] /\ forall j, In j e -> is_config_interface j = false))).
Proof.
  unfold find. split.
  - destruct (List.find is_config_interface e) eqn:Hf.
    + split; [discriminate|]. intros ->. discriminate.
    + destruct e; split; auto; discriminate.
  - intros i Hi. destruct (List.find is_config_interface e) eqn:Hf.
    + injection Hi as <-. destruct (list_find_split _ _ _ Hf) as (pre & post & Heq & Hx & Hpre).
      exists pre, post. split; [exact Heq|]. left; split; assumption.
    + destruct e as [|d0 t]; [discriminate|]. injection Hi as <-.
      exists [], t. split; [reflexivity|]. right. split; [reflexivity|].
      intros j Hj. apply (find_none _ _ Hf j Hj).
Qed.

Lemma with_device_same (a : App) : with_device a (device a) = a.
Proof. destruct a; reflexivity. Qed.

(** With no Beast X attached, [connect] raises the not-found
    RuntimeError, yet neither the Connect button nor the start-up attempt
    changes anything, and no toast appears: the button's failure
    callback reads the deleted [e] and raises NameError. *)
Theorem connect_not_found_reporting (s : Shell) (env : ConnectEnv) :
  scan1 env = [] -> scan2 env = [] -> connected (device (shell s)) = false ->
  connect (device (shell s)) env = (device (shell s), inr (RuntimeError NOT_FOUND_MSG)) /\
  _toggle_connect s env = s /\ _auto_reconnect s env = s.
Proof.
  intros H1 H2 Hc. unfold _toggle_connect, _do_connect, _auto_reconnect, connect.
  rewrite Hc, H1, H2. simpl. rewrite with_device_same.
  split; [reflexivity|]. destruct s; split; reflexivity.
Qed.

Lemma connect_not_found_reporting_witness :
  scan1 no_device_env = [] /\ scan2 no_device_env = [] /\
  connected (device (shell idle_shell)) = false /\
  connect (device (shell idle_shell)) no_device_env =
    (device (shell idle_shell), inr (RuntimeError NOT_FOUND_MSG)) /\
  _toggle_connect idle_shell no_device_env = idle_shell /\
  _auto_reconnect idle_shell no_device_env = idle_shell.
Proof.
  split; [reflexivity|]. split; [reflexivity|]. split; [reflexivity|].
  apply connect_not_found_reporting; reflexivity.
Defined.

(** When the device is found but [open_path] raises, [self._dev] is
    already set: the device counts as connected although the status
    label still says disconnected and no toast appears (the failure
    callback raises NameError); the next click on the button disconnects
    instead of connecting, whatever is plugged in by then. *)
Theorem failed_open_looks_connected (s : Shell) (env : ConnectEnv) (info : DevInfo) (e : PyExc) :
  connected (device (shell s)) = false ->
  find (scan1 env) (scan2 env) = Some info -> open_path env (path info) = Some e ->
  let s1 := _toggle_connect s env in
  connected (device (shell s1)) = true /\ status_connected s1 = status_connected s /\
  toasts (shell s1) = toasts (shell s) /\
  (forall env', let s2 := _toggle_connect s1 env' in
   s2 = _toggle_connect s1 env /\ connected (device (shell s2)) = false /\
   status_connected s2 = false /\ toasts (shell s2) = toasts (shell s1)).
Proof.
  intros Hc Hf Ho. unfold _toggle_connect at 1. rewrite Hc.
  unfold _do_connect, connect. rewrite Hf, Ho. simpl.
  split; [reflexivity|]. split; [reflexivity|]. split; [reflexivity|].
  intro env'. unfold _toggle_connect. simpl. repeat split.
Qed.

Lemma failed_open_looks_connected_witness :
  connected (device (shell idle_shell)) = false /\
  find (scan1 open_refused_env) (scan2 open_refused_env) = Some beastx_info /\
  open_path open_refused_env (path beastx_info) = Some (RuntimeError "open failed") /\
  (let s1 := _toggle_connect idle_shell open_refused_env in
   connected (device (shell s1)) = true /\ status_connected s1 = status_connected idle_shell /\
   toasts (shell s1) = toasts (shell idle_shell) /\
   (forall env', let s2 := _toggle_connect s1 env' in
    s2 = _toggle_connect s1 open_refused_env /\ connected (device (shell s2)) = false /\
    status_connected s2 = false /\ toasts (shell s2) = toasts (shell s1))).
Proof.
  split; [reflexivity|]. split; [reflexivity|]. split; [reflexivity|].
  apply (failed_open_looks_connected idle_shell open_refused_env beastx_info
           (RuntimeError "open failed")); reflexivity.
Defined.

(** From a disconnected state, the Connect button ends exactly where
    the silent start-up reconnect does, for every outcome of [connect]:
    on success with the status connected and a "Mouse connected" toast;
    on failure with no toast and the status unchanged. *)
Theorem auto_reconnect_vs_toggle (s : Shell) (env : ConnectEnv) :
  connected (device (shell s)) = false ->
  _toggle_connect s env = _auto_reconnect s env /\
  (forall ok, snd (connect (device (shell s)) env) = inl ok ->
   status_connected (_toggle_connect s env) = true /\
   toasts (shell (_toggle_connect s env)) = toasts (shell s) ++ [mkToast "Mouse connected" true]) /\
  (forall e, snd (connect (device (shell s)) env) = inr e ->
   toasts (shell (_toggle_connect s env)) = toasts (shell s) /\
   status_connected (_toggle_connect s env) = status_connected s).
Proof.
  intro Hc. unfold _toggle_connect. rewrite Hc. unfold _auto_reconnect, _do_connect.
  destruct (connect (device (shell s)) env) as [d' [ok|e]]; simpl.
  - split; [reflexivity|]. split; intros x Hx; [repeat split | discriminate].
  - split; [reflexivity|]. split; intros x Hx; [discriminate | repeat split].
Qed.

Lemma auto_reconnect_vs_toggle_witness :
  connected (device (shell idle_shell)) = false /\
  _toggle_connect idle_shell plugged_env = _auto_reconnect idle_shell plugged_env /\
  (forall ok, snd (connect (device (shell idle_shell)) plugged_env) = inl ok ->
   status_connected (_toggle_connect idle_shell plugged_env) = true /\
   toasts (shell (_toggle_connect idle_shell plugged_env)) =
     toasts (shell idle_shell) ++ [mkToast "Mouse connected" true]) /\
  (forall e, snd (connect (device (shell idle_shell)) plugged_env) = inr e ->
   toasts (shell (_toggle_connect idle_shell plugged_env)) = toasts (shell idle_shell) /\
   status_connected (_toggle_connect idle_shell plugged_env) = status_connected idle_shell).
Proof.
  split; [reflexivity|].
  apply (auto_reconnect_vs_toggle idle_shell plugged_env); reflexivity.
Defined.

(** After [disconnect] (which is idempotent and keeps the write log)
    nothing reaches the device: every [send] raises "Not connected", and
    the catalog setters write nothing for any key. *)
Theorem disconnected_writes_nothing (d : Device) :
  connected (disconnect d) = false /\ disconnect (disconnect d) = disconnect d /\
  written (disconnect d) = written d /\
  (forall p, send (disconnect d) p = (disconnect d, inr (RuntimeError "Not connected"))) /\
  (forall hz, In hz POLL_KEYS ->
   set_poll_rate (disconnect d) hz = (disconnect d, inr (RuntimeError "Not connected"))) /\
  (forall hz, written (fst (set_poll_rate (disconnect d) hz)) = written d) /\
  (forall v, written (fst (set_lod (disconnect d) v)) = written d).
Proof.
  assert (Hn : dev (disconnect d) = None) by (unfold disconnect; destruct (dev d) eqn:E; simpl; auto).
  assert (Hw : written (disconnect d) = written d) by (unfold disconnect; destruct (dev d); reflexivity).
  assert (Hs : forall p, send (disconnect d) p = (disconnect d, inr (RuntimeError "Not connected")))
    by (intro p; unfold send; rewrite Hn; reflexivity).
  split; [unfold connected; rewrite Hn; reflexivity|].
  split; [unfold disconnect at 1; rewrite Hn; reflexivity|].

  split; [exact Hw|]. split; [exact Hs|]. split; [|split].
  - intros hz Hin. unfold set_poll_rate.
    destruct (table_get POLL_PACKETS hz) as [p|] eqn:Hp.
    + rewrite Hs; reflexivity.
    + exfalso. unfold POLL_KEYS in Hin; simpl in Hin.
      repeat (destruct Hin as [<-|Hin]; [discriminate Hp|]); contradiction.
  - intro hz. unfold set_poll_rate. destruct (table_get POLL_PACKETS hz); [rewrite Hs|]; exact Hw.
  - intro v. unfold set_lod. destruct (table_get LOD_PACKETS v); [rewrite Hs|]; exact Hw.
Qed.

(* ---------------------------------------------------------------------------
   What reaches the wire
   --------------------------------------------------------------------------- *)

Lemma send_catalog_packet (d : Device) (h : HidHandle) (p : list Z) :
  dev d = Some h -> bytes_ok p = true -> length p = 32%nat ->
  send d p =
    (mkDevice (Some h) (written d ++ [0 :: p ++ repeat 0 32]),
     if hid_write h (0 :: p ++ repeat 0 32) <? 0
     then inr (RuntimeError ("Write failed: " ++ hid_error h)%string)
     else inl (hid_write h (0 :: p ++ repeat 0 32))).
Proof.
  intros Hd Hb Hl. unfold send. rewrite Hd.
  rewrite (pad_packet_shape p Hb ltac:(rewrite Hl; unfold REPORT_SIZE; lia)), Hl.
  change (REPORT_SIZE - 32)%nat with 32%nat.
  destruct (hid_write h (0 :: p ++ repeat 0 32) <? 0); reflexivity.
Qed.

Lemma catalog_frame_facts (d : Device) (h : HidHandle) (hz v : Z) :
  dev d = Some h -> In hz POLL_KEYS -> In v [0; 1] ->
  (exists p, table_get POLL_PACKETS hz = Some p /\
   bytes_ok p = true /\ length p = 32%nat /\ nth 0 p 0 = 4 /\
   set_poll_rate d hz =
     (mkDevice (Some h) (written d ++ [0 :: p ++ repeat 0 32]),
      if hid_write h (0 :: p ++ repeat 0 32) <? 0
      then inr (RuntimeError ("Write failed: " ++ hid_error h)%string) else inl tt)) /\
  (exists p, table_get LOD_PACKETS v = Some p /\
   bytes_ok p = true /\ length p = 32%nat /\ nth 0 p 0 = 4 /\
   set_lod d v =
     (mkDevice (Some h) (written d ++ [0 :: p ++ repeat 0 32]),
      if hid_write h (0 :: p ++ repeat 0 32) <? 0
      then inr (RuntimeError ("Write failed: " ++ hid_error h)%string) else inl tt)).
Proof.
  intros Hd Hhz Hv. split.
  - assert (Hget : exists p, table_get POLL_PACKETS hz = Some p).
    { unfold POLL_KEYS in Hhz; simpl in Hhz.
      repeat (destruct Hhz as [<-|Hhz]; [eexists; reflexivity|]); contradiction. }
    destruct Hget as [p Hp]. exists p.
    destruct (poll_packet_facts hz p Hp) as (Hb & Hl & H0).
    do 4 (split; [assumption|]).
    unfold set_poll_rate. rewrite Hp, (send_catalog_packet d h p Hd Hb Hl).
    destruct (_ <? 0); reflexivity.
  - assert (Hget : exists p, table_get LOD_PACKETS v = Some p).
    { simpl in Hv. repeat (destruct Hv as [<-|Hv]; [eexists; reflexivity|]); contradiction. }
    destruct Hget as [p Hp]. exists p.
    destruct (lod_packet_facts v p Hp) as (Hb & Hl & H0).
    do 4 (split; [assumption|]).
    unfold set_lod. rewrite Hp, (send_catalog_packet d h p Hd Hb Hl).
    destruct (_ <? 0); reflexivity.
Qed.

(** Every catalog setting on an open device makes exactly one write: the
    report-ID byte 0x00, then the 32-byte catalog literal (starting with
    0x04), then 32 zero bytes, 65 bytes in all; the setter succeeds
    exactly when the write returns a non-negative count. *)
Theorem catalog_write_frame (d : Device) (h : HidHandle) (hz v : Z) :
  dev d = Some h -> In hz POLL_KEYS -> In v [0; 1] ->
  (exists p, table_get POLL_PACKETS hz = Some p /\
   let wbuf := 0 :: p ++ repeat 0 32 in
   length wbuf = 65%nat /\ nth 0 wbuf 1 = 0 /\ nth 1 wbuf 0 = 4 /\
   set_poll_rate d hz =
     (mkDevice (Some h) (written d ++ [wbuf]),
      if hid_write h wbuf <? 0
      then inr (RuntimeError ("Write failed: " ++ hid_error h)%string) else inl tt)) /\
  (exists p, table_get LOD_PACKETS v = Some p /\
   let wbuf := 0 :: p ++ repeat 0 32 in
   length wbuf = 65%nat /\ nth 0 wbuf 1 = 0 /\ nth 1 wbuf 0 = 4 /\
   set_lod d v =
     (mkDevice (Some h) (written d ++ [wbuf]),
      if hid_write h wbuf <? 0
      then inr (RuntimeError ("Write failed: " ++ hid_error h)%string) else inl tt)).
Proof.
  intros Hd Hhz Hv.
  destruct (catalog_frame_facts d h hz v Hd Hhz Hv)
    as [[p (Hp & Hb & Hl & H0 & Hs)] [q (Hq & Hb' & Hl' & H0' & Hs')]].
  split; [exists p | exists q]; (split; [assumption|]); cbv zeta.
  - split; [change (length (0 :: p ++ repeat 0 32)) with (S (length (p ++ repeat 0 32)));
            rewrite length_app, repeat_length, Hl; reflexivity|].
    split; [reflexivity|].
    split; [change (nth 1 (0 :: p ++ repeat 0 32) 0) with (nth 0 (p ++ repeat 0 32) 0);
            rewrite app_nth1 by lia; exact H0|].
    exact Hs.
  - split; [change (length (0 :: q ++ repeat 0 32)) with (S (length (q ++ repeat 0 32)));
            rewrite length_app, repeat_length, Hl'; reflexivity|].
    split; [reflexivity|].
    split; [change (nth 1 (0 :: q ++ repeat 0 32) 0) with (nth 0 (q ++ repeat 0 32) 0);
            rewrite app_nth1 by lia; exact H0'|].
    exact Hs'.
Qed.

Lemma catalog_write_frame_witness :
  dev (mkDevice (Some working_handle) []) = Some working_handle /\
  In 500 POLL_KEYS /\ In 1 [0; 1] /\
  (exists p, table_get POLL_PACKETS 500 = Some p /\
   let wbuf := 0 :: p ++ repeat 0 32 in
   length wbuf = 65%nat /\ nth 0 wbuf 1 = 0 /\ nth 1 wbuf 0 = 4 /\
   set_poll_rate (mkDevice (Some working_handle) []) 500 =
     (mkDevice (Some working_handle) (written (mkDevice (Some working_handle) []) ++ [wbuf]),
      if hid_write working_handle wbuf <? 0
      then inr (RuntimeError ("Write failed: " ++ hid_error working_handle)%string) else inl tt)) /\
  (exists p, table_get LOD_PACKETS 1 = Some p /\
   let wbuf := 0 :: p ++ repeat 0 32 in
   length wbuf = 65%nat /\ nth 0 wbuf 1 = 0 /\ nth 1 wbuf 0 = 4 /\
   set_lod (mkDevice (Some working_handle) []) 1 =
     (mkDevice (Some working_handle) (written (mkDevice (Some working_handle) []) ++ [wbuf]),
      if hid_write working_handle wbuf <? 0
      then inr (RuntimeError ("Write failed: " ++ hid_error working_handle)%string) else inl tt)).
Proof.
  split; [reflexivity|]. split; [simpl; tauto|]. split; [simpl; tauto|].
  apply catalog_write_frame; [reflexivity|simpl; tauto|simpl; tauto].
Defined.

(** [pad_packet] never truncates: a packet of 64 bytes or more is written
    as it is; and a packet holding a value outside 0..255 raises
    ValueError on an open device before anything is written. *)
Theorem pad_packet_edges (d : Device) (h : HidHandle) (data : list Z) :
  dev d = Some h ->
  (bytes_ok data = true -> (REPORT_SIZE <= length data)%nat ->
   pad_packet data = inl data /\
   fst (send d data) = mkDevice (Some h) (written d ++ [0 :: data])) /\
  (bytes_ok data = false ->
   send d data = (d, inr (ValueError "byte must be in range(0, 256)"))).
Proof.
  intros Hd. split.
  - intros Hb Hl.
    assert (Hp : pad_packet data = inl data).
    { unfold pad_packet. unfold bytes_ok in Hb. rewrite Hb, skipn_repeat_Z.
      replace (REPORT_SIZE - length data)%nat with 0%nat by lia.
      rewrite app_nil_r; reflexivity. }
    split; [exact Hp|]. unfold send. rewrite Hd, Hp.
    destruct (hid_write h (0 :: data) <? 0); reflexivity.
  - intros Hb. unfold send, pad_packet. unfold bytes_ok in Hb. rewrite Hd, Hb. reflexivity.
Qed.

Definition long_packet : list Z := repeat 7 70.

Lemma pad_packet_edges_witness :
  dev (mkDevice (Some working_handle) []) = Some working_handle /\
  ((bytes_ok long_packet = true -> (REPORT_SIZE <= length long_packet)%nat ->
    pad_packet long_packet = inl long_packet /\
    fst (send (mkDevice (Some working_handle) []) long_packet) =
      mkDevice (Some working_handle) (written (mkDevice (Some working_handle) []) ++ [0 :: long_packet])) /\
   (bytes_ok long_packet = false ->
    send (mkDevice (Some working_handle) []) long_packet =
      (mkDevice (Some working_handle) [], inr (ValueError "byte must be in range(0, 256)")))).
Proof.
  split; [reflexivity|]. apply pad_packet_edges; reflexivity.
Defined.

(* ---------------------------------------------------------------------------
   Start-up and the config file
   --------------------------------------------------------------------------- *)

Lemma build_ui_failure_none_iff (c : Config) :
  build_ui_failure c = None <->
  In (poll_rate c) RATES /\
  - Z.of_nat (length (dpi_profiles c)) <= active_dpi c < Z.of_nat (length (dpi_profiles c)).
Proof.
  unfold build_ui_failure. rewrite <- py_getitem_ok_iff.
  assert (Hr : existsb (Z.eqb (poll_rate c)) RATES = true <-> In (poll_rate c) RATES).
  { rewrite existsb_exists. split.
    - intros [x [Hx E]]. apply Z.eqb_eq in E. subst; exact Hx.
    - intros H. exists (poll_rate c). split; [exact H|apply Z.eqb_refl]. }
  destruct (existsb (Z.eqb (poll_rate c)) RATES) eqn:E; simpl.
  - destruct (py_getitem (dpi_profiles c) (active_dpi c)) as [x|e].
    + split; [intros _; split; [apply Hr; reflexivity|eauto]|reflexivity].
    + split; [discriminate|]. intros [_ [x Hx]]; discriminate.
  - split; [discriminate|]. intros [H _]. apply Hr in H. discriminate.
Qed.

Lemma rate_lookup_some (hz : Z) :
  (exists note, rate_lookup rate_btns hz = Some note) <-> In hz RATES.
Proof.
  unfold rate_btns, RATES; simpl.
  repeat match goal with
         | |- context [hz =? ?k] => destruct (Z.eqb_spec hz k) as [->|?]
         end; simpl; split;
    first [ intros _; lia
          | intros _; eexists; reflexivity
          | intros [? Hn]; discriminate
          | intros Hin; repeat destruct Hin as [Hin|Hin]; lia ].
Qed.

Lemma build_page_info_result (c : Config) :
  _build_page_info c =
  match py_getitem (dpi_profiles c) (active_dpi c) with
  | inl dpi => inl [("active_dpi", py_int_comma dpi);
                    ("poll_rate", (py_int_str (poll_rate c) ++ " Hz")%string);
                    ("lod", if lod c =? 0 then "1mm" else "2mm")]
  | inr e => inr e
  end.
Proof.
  unfold _build_page_info, INFO_KEYS. simpl. unfold info_tile. simpl.
  destruct (py_getitem (dpi_profiles c) (active_dpi c)); reflexivity.
Qed.

(** The window builds from a configuration exactly when its polling rate
    is one of the six rate buttons and [active_dpi] is a Python index of
    the profile list, negative ones included.  A rate without a button
    raises KeyError in the polling page, before the info page is built,
    even when the index is bad too; otherwise a bad index raises
    IndexError in the info page's active-DPI tile.  [build_ui_failure]
    reports exactly these failures. *)
Theorem startup_condition (c : Config) :
  ((exists r, _build_ui c = inl r) <->
   In (poll_rate c) RATES /\
   - Z.of_nat (length (dpi_profiles c)) <= active_dpi c < Z.of_nat (length (dpi_profiles c))) /\
  (~ In (poll_rate c) RATES -> _build_ui c = inr (KeyError (py_int_str (poll_rate c)))) /\
  (In (poll_rate c) RATES ->
   ~ (- Z.of_nat (length (dpi_profiles c)) <= active_dpi c < Z.of_nat (length (dpi_profiles c))) ->
   _build_ui c = inr (IndexError "list index out of range")) /\
  (build_ui_failure c = None <-> exists r, _build_ui c = inl r).
Proof.
  pose proof (rate_lookup_some (poll_rate c)) as Hr.
  pose proof (py_getitem_ok_iff (dpi_profiles c) (active_dpi c)) as Hg.
  assert (Hgerr : forall e, py_getitem (dpi_profiles c) (active_dpi c) = inr e ->
                  e = IndexError "list index out of range").
  { unfold py_getitem. intros e.
    destruct (py_norm_index (dpi_profiles c) (active_dpi c)) as [k|];
      [destruct (nth_error (dpi_profiles c) k)|]; congruence. }
  assert (Hok : (exists r, _build_ui c = inl r) <->
                In (poll_rate c) RATES /\
                - Z.of_nat (length (dpi_profiles c)) <= active_dpi c < Z.of_nat (length (dpi_profiles c))).
  { rewrite <- Hr, <- Hg. unfold _build_ui, _build_page_polling. rewrite build_page_info_result.
    destruct (rate_lookup rate_btns (poll_rate c)) as [note|];
      destruct (py_getitem (dpi_profiles c) (active_dpi c)) as [x|e]; split;
      first [ intros [r Hr']; discriminate
            | intros [[n Hn] _]; discriminate
            | intros [_ [y Hy]]; discriminate
            | intros _; split; eauto
            | intros _; eexists; reflexivity ]. }
  split; [exact Hok|]. split; [|split].
  - intros Hn. unfold _build_ui, _build_page_polling.
    destruct (rate_lookup rate_btns (poll_rate c)) as [note|] eqn:E; [|reflexivity].
    exfalso. apply Hn, Hr. eauto.
  - intros Hin Hout. unfold _build_ui, _build_page_polling.
    apply Hr in Hin. destruct Hin as [note Hn]. rewrite Hn, build_page_info_result.
    destruct (py_getitem (dpi_profiles c) (active_dpi c)) as [x|e] eqn:E.
    + exfalso. apply Hout, Hg. eauto.
    + rewrite (Hgerr e eq_refl). reflexivity.
  - rewrite Hok. apply build_ui_failure_none_iff.
Qed.

Lemma startup_condition_witness :
  (~ In 300 RATES -> _build_ui (mkConfig [800] 5 300 0 []) = inr (KeyError "300")) /\
  (In 1000 RATES ->
   ~ (- Z.of_nat (length [800]) <= 5 < Z.of_nat (length [800])) ->
   _build_ui (mkConfig [800] 5 1000 0 []) = inr (IndexError "list index out of range")).
Proof.
  split.
  - exact (proj1 (proj2 (startup_condition (mkConfig [800] 5 300 0 [])))).
  - exact (proj1 (proj2 (proj2 (startup_condition (mkConfig [800] 5 1000 0 []))))).
Defined.








(** [load_config] always returns a dict whose first four keys are the
    default ones in their order, whatever the file holds: [update] keeps
    an existing key where it is and appends new ones. *)
Lemma dict_set_keys (d : pydict) (k v : json) :
  exists tl, map fst (dict_set d k v) = map fst d ++ tl.
Proof.
  induction d as [|[k' v'] t IH]; simpl.
  - exists [k]; reflexivity.
  - destruct (py_key_eq k k'); simpl.
    + exists []; rewrite app_nil_r; reflexivity.
    + destruct IH as [tl E]. exists tl. rewrite E; reflexivity.
Qed.

Lemma fold_dict_set_keys (kvs : list (pystr * json)) (d : pydict) :
  exists tl, map fst (fold_left (fun acc kv => dict_set acc (JStr (fst kv)) (snd kv)) kvs d) =
             map fst d ++ tl.
Proof.
  revert d; induction kvs as [|kv kvs IH]; intros d; simpl.
  - exists []; rewrite app_nil_r; reflexivity.
  - destruct (IH (dict_set d (JStr (fst kv)) (snd kv))) as [tl1 E1].
    destruct (dict_set_keys d (JStr (fst kv)) (snd kv)) as [tl2 E2].
    exists (tl2 ++ tl1). rewrite E1, E2, app_assoc; reflexivity.
Qed.

Lemma update_pairs_keys (es : list json) (d d' : pydict) :
  update_pairs d es = Some d' -> exists tl, map fst d' = map fst d ++ tl.
Proof.
  revert d; induction es as [|e es IH]; intros d H; simpl in H.
  - injection H as <-. exists []; rewrite app_nil_r; reflexivity.
  - destruct (update_pair e) as [[k v]|]; [|discriminate].
    destruct (IH _ H) as [tl1 E1]. destruct (dict_set_keys d k v) as [tl2 E2].
    exists (tl2 ++ tl1). rewrite E1, E2, app_assoc; reflexivity.
Qed.

Theorem load_config_key_order (f : FileState) :
  exists rest,
    map fst (load_config f) =
    [JStr "dpi_profiles"; JStr "active_dpi"; JStr "poll_rate"; JStr "lod"] ++ rest.
Proof.
  assert (Hd : map fst DEFAULT_CONFIG =
               [JStr "dpi_profiles"; JStr "active_dpi"; JStr "poll_rate"; JStr "lod"])
    by reflexivity.
  destruct f as [| | |data]; try (exists []; reflexivity).
  unfold load_config.
  destruct (dict_update DEFAULT_CONFIG data) as [m|] eqn:E;
    [|exists []; rewrite Hd, app_nil_r; reflexivity].
  rewrite <- Hd. destruct data as [| | | |es|kvs]; simpl in E; try discriminate.
  - destruct s as [|c s']; [injection E as <-; exists []; rewrite app_nil_r; reflexivity|discriminate].
  - exact (update_pairs_keys es _ _ E).
  - injection E as <-. apply fold_dict_set_keys.
Qed.

(* ---------------------------------------------------------------------------
   The profile list
   --------------------------------------------------------------------------- *)

Lemma nth_remove_nth (l : list Z) (k j : nat) :
  (k <= j)%nat -> nth j (remove_nth l k) 0 = nth (S j) l 0.
Proof.
  revert k j; induction l as [|y t IH]; intros k j Hkj.
  - destruct k, j; reflexivity.
  - destruct k as [|k]; [reflexivity|].
    destruct j as [|j]; [lia|]. simpl. apply IH; lia.
Qed.

(** [_del_dpi] only moves [active_dpi] when it falls off the end: after
    deleting a row before the active one, the index stays put and so
    points at the profile that followed the active one; deleting the
    last row while it is active selects the new last row. *)
Theorem del_dpi_shifts_active (a : App) (idx : Z) :
  let ps := dpi_profiles (config a) in
  let act := active_dpi (config a) in
  (2 <= length ps)%nat -> 0 <= idx < Z.of_nat (length ps) -> 0 <= act < Z.of_nat (length ps) ->
  let (a', e) := _del_dpi a idx in
  e = None /\
  active_dpi (config a') = (if act =? Z.of_nat (length ps) - 1 then act - 1 else act) /\
  (idx <= act < Z.of_nat (length ps) - 1 ->
   nth (Z.to_nat (active_dpi (config a'))) (dpi_profiles (config a')) 0 =
   nth (Z.to_nat act + 1) ps 0).
Proof.
  cbv zeta. intros H2 Hi Ha. unfold _del_dpi.
  assert (E1 : (Z.of_nat (length (dpi_profiles (config a))) <=? 1) = false) by (apply Z.leb_gt; lia).
  rewrite E1. unfold py_pop. rewrite (py_norm_index_nonneg _ _ Hi).
  rewrite (length_remove_nth (dpi_profiles (config a)) (Z.to_nat idx) ltac:(lia)). simpl.
  split; [reflexivity|].
  rewrite Nat2Z.inj_sub by lia. simpl Z.of_nat.
  split.
  - destruct (Z.leb_spec (Z.of_nat (length (dpi_profiles (config a))) - 1) (active_dpi (config a)));
      destruct (Z.eqb_spec (active_dpi (config a)) (Z.of_nat (length (dpi_profiles (config a))) - 1));
      lia.
  - intros Hlt.
    destruct (Z.leb_spec (Z.of_nat (length (dpi_profiles (config a))) - 1) (active_dpi (config a)));
      [lia|].
    rewrite nth_remove_nth by lia. f_equal. lia.
Qed.

Lemma del_dpi_shifts_active_witness :
  (2 <= length (dpi_profiles (config app_third)))%nat /\
  0 <= 0 < Z.of_nat (length (dpi_profiles (config app_third))) /\
  0 <= active_dpi (config app_third) < Z.of_nat (length (dpi_profiles (config app_third))) /\
  (let (a', e) := _del_dpi app_third 0 in
   e = None /\
   active_dpi (config a') =
     (if active_dpi (config app_third) =? Z.of_nat (length (dpi_profiles (config app_third))) - 1
      then active_dpi (config app_third) - 1 else active_dpi (config app_third)) /\
   (0 <= active_dpi (config app_third) < Z.of_nat (length (dpi_profiles (config app_third))) - 1 ->
    nth (Z.to_nat (active_dpi (config a'))) (dpi_profiles (config a')) 0 =
    nth (Z.to_nat (active_dpi (config app_third)) + 1) (dpi_profiles (config app_third)) 0)).
Proof.
  assert (H1 : (2 <= length (dpi_profiles (config app_third)))%nat) by (simpl; lia).
  assert (H2 : 0 <= 0 < Z.of_nat (length (dpi_profiles (config app_third)))) by (simpl; lia).
  assert (H3 : 0 <= active_dpi (config app_third) < Z.of_nat (length (dpi_profiles (config app_third))))
    by (simpl; lia).
  split; [exact H1|]. split; [exact H2|]. split; [exact H3|].
  exact (del_dpi_shifts_active app_third 0 H1 H2 H3).
Defined.

Lemma remove_nth_last {A} (l : list A) (x : A) :
  remove_nth (l ++ [x]) (length l) = l.
Proof. induction l as [|y t IH]; simpl; [reflexivity|rewrite IH; reflexivity]. Qed.

(** Adding a profile and deleting the last row ([idx = -1]) restores the
    configuration: the list, the active index and the saved file. *)
Theorem add_then_del_last (a : App) :
  (1 <= length (dpi_profiles (config a)) <= 4)%nat -> active_in_range (config a) ->
  let (a1, e1) := _add_dpi a in
  let (a2, e2) := _del_dpi a1 (-1) in
  e1 = None /\ e2 = None /\ config a2 = config a /\
  file a2 = save_config (to_dict (config a)).
Proof.
  intros Hl Ha. unfold active_in_range in Ha. unfold _add_dpi.
  assert (E1 : (5 <=? Z.of_nat (length (dpi_profiles (config a)))) = false) by (apply Z.leb_gt; lia).
  rewrite E1. unfold _del_dpi; simpl.
  rewrite length_app; simpl.
  assert (E2 : (Z.of_nat (length (dpi_profiles (config a)) + 1) <=? 1) = false) by (apply Z.leb_gt; lia).
  rewrite E2. unfold py_pop, py_norm_index. rewrite length_app; simpl.
  assert (E3 : (- Z.of_nat (length (dpi_profiles (config a)) + 1) <=? -1) && (-1 <? 0) = true)
    by (apply andb_true_intro; split; [apply Z.leb_le; lia|reflexivity]).
  rewrite E3.
  replace (Z.to_nat (Z.of_nat (length (dpi_profiles (config a)) + 1) + -1))
    with (length (dpi_profiles (config a))) by lia.
  rewrite remove_nth_last.
  assert (E4 : (Z.of_nat (length (dpi_profiles (config a))) <=? active_dpi (config a)) = false)
    by (apply Z.leb_gt; lia).
  rewrite E4. destruct (config a); simpl; auto.
Qed.

Lemma add_then_del_last_witness :
  (1 <= length (dpi_profiles (config app_connected)) <= 4)%nat /\
  active_in_range (config app_connected) /\
  (let (a1, e1) := _add_dpi app_connected in
   let (a2, e2) := _del_dpi a1 (-1) in
   e1 = None /\ e2 = None /\ config a2 = config app_connected /\
   file a2 = save_config (to_dict (config app_connected))).
Proof.
  assert (H1 : (1 <= length (dpi_profiles (config app_connected)) <= 4)%nat) by (simpl; lia).
  assert (H2 : active_in_range (config app_connected)) by (unfold active_in_range; simpl; lia).
  split; [exact H1|]. split; [exact H2|].
  exact (add_then_del_last app_connected H1 H2).
Defined.

(** An index with no row makes [_dpi_slide] and [_del_dpi] raise
    IndexError before anything is stored or saved; with one profile
    left, [_del_dpi] refuses with a toast whatever the index, in range
    or not. *)
Theorem bad_index_changes_nothing (a : App) (value idx : Z) :
  (~ (- Z.of_nat (length (dpi_profiles (config a))) <= idx < Z.of_nat (length (dpi_profiles (config a)))) ->
   _dpi_slide a value idx = (a, Some (IndexError "list assignment index out of range")) /\
   ((2 <= length (dpi_profiles (config a)))%nat ->
    _del_dpi a idx = (a, Some (IndexError "pop index out of range")))) /\
  ((length (dpi_profiles (config a)) <= 1)%nat ->
   _del_dpi a idx = (push_toast a "Need at least one profile" false, None)).
Proof.
  split.
  - intros Hout.
    assert (En : py_norm_index (dpi_profiles (config a)) idx = None).
    { destruct (py_norm_index (dpi_profiles (config a)) idx) eqn:E; [|reflexivity].
      exfalso. apply Hout, py_norm_index_some_iff. eauto. }
    split.
    + unfold _dpi_slide, py_setitem. rewrite En. reflexivity.
    + intros H2. unfold _del_dpi.
      assert (E1 : (Z.of_nat (length (dpi_profiles (config a))) <=? 1) = false) by (apply Z.leb_gt; lia).
      rewrite E1. unfold py_pop. rewrite En. reflexivity.
  - intros H1. unfold _del_dpi.
    assert (E1 : (Z.of_nat (length (dpi_profiles (config a))) <=? 1) = true) by (apply Z.leb_le; lia).
    rewrite E1. reflexivity.
Qed.

Lemma bad_index_changes_nothing_witness :
  _dpi_slide app_connected 900 4 = (app_connected, Some (IndexError "list assignment index out of range")) /\
  _del_dpi app_connected 4 = (app_connected, Some (IndexError "pop index out of range")) /\
  _del_dpi (mkApp (mkConfig [800] 0 1000 0 []) (file app_connected) (device app_connected) []) 0 =
    (push_toast (mkApp (mkConfig [800] 0 1000 0 []) (file app_connected) (device app_connected) [])
       "Need at least one profile" false, None).
Proof.
  assert (H : ~ (- Z.of_nat (length (dpi_profiles (config app_connected))) <= 4 <
                 Z.of_nat (length (dpi_profiles (config app_connected))))) by (simpl; lia).
  destruct (proj1 (bad_index_changes_nothing app_connected 900 4) H) as [Hs Hd].
  split; [exact Hs|]. split; [apply Hd; simpl; lia|].
  apply (proj2 (bad_index_changes_nothing
    (mkApp (mkConfig [800] 0 1000 0 []) (file app_connected) (device app_connected) []) 0 0)).
  simpl; lia.
Defined.

(* ---------------------------------------------------------------------------
   The info page
   --------------------------------------------------------------------------- *)

Lemma label_texts_keys (c : Config) (keys : list string) (ls : list (string * string)) :
  label_texts c keys = inl ls -> map fst ls = keys.
Proof.
  revert ls; induction keys as [|k ks IH]; intros ls H; simpl in H.
  - injection H as <-; reflexivity.
  - destruct (info_tile c k) as [t|e]; destruct (label_texts c ks) as [rest|e'] eqn:E;
      try discriminate.
    injection H as <-. simpl. rewrite (IH rest eq_refl). reflexivity.
Qed.

(** [_refresh_info] never changes the tiles built by [_build_page_info]:
    their keys are the three field names, never ["info"], so whatever
    the configuration has become, the labels keep the texts of the
    configuration they were built from. *)
Theorem refresh_info_is_noop (c c' : Config) (labels : list (string * string)) :
  _build_page_info c = inl labels -> _refresh_info c' labels = inl labels.
Proof.
  intros H. unfold _build_page_info in H.
  unfold _refresh_info. rewrite (label_texts_keys c INFO_KEYS labels H). reflexivity.
Qed.

Lemma refresh_info_is_noop_witness :
  _build_page_info default_cfg =
    inl [("active_dpi", "800"); ("poll_rate", "1000 Hz"); ("lod", "1mm")] /\
  _refresh_info (mkConfig [400; 800; 1600; 3200] 3 4000 1 [])
                [("active_dpi", "800"); ("poll_rate", "1000 Hz"); ("lod", "1mm")] =
    inl [("active_dpi", "800"); ("poll_rate", "1000 Hz"); ("lod", "1mm")].
Proof.
  assert (H : _build_page_info default_cfg =
              inl [("active_dpi", "800"); ("poll_rate", "1000 Hz"); ("lod", "1mm")])
    by (vm_compute; reflexivity).
  split; [exact H|]. exact (refresh_info_is_noop _ _ _ H).
Defined.

(* ---------------------------------------------------------------------------
   The success path of a setting change
   --------------------------------------------------------------------------- *)

(** With a device that accepts the write, choosing a rate or a lift-off
    distance makes one write and ends in the success toast
    ["✓  " + message], the message naming the value chosen. *)
Theorem setting_change_success (a : App) (h : HidHandle) (hz v : Z) (note : string) :
  dev (device a) = Some h -> (forall b, 0 <= hid_write h b) ->
  In hz POLL_KEYS -> In v [0; 1] ->
  (length (written (device (apply_op a (OpPoll hz note)))) = S (length (written (device a))) /\
   toasts (apply_op a (OpPoll hz note)) =
     toasts a ++ [mkToast ("✓  Polling rate → " ++ py_int_str hz ++ " Hz")%string true]) /\
  (length (written (device (apply_op a (OpLod v)))) = S (length (written (device a))) /\
   toasts (apply_op a (OpLod v)) =
     toasts a ++ [mkToast ("✓  Lift-off → " ++ (if Z.eqb v 0 then "1mm" else "2mm"))%string true]).
Proof.
  intros Hd Hw Hhz Hv.
  destruct (catalog_frame_facts (device a) h hz v Hd Hhz Hv)
    as [[p (_ & _ & _ & _ & Hp)] [q (_ & _ & _ & _ & Hq)]].
  split.
  - unfold apply_op, _set_poll, run_send; simpl. rewrite Hp.
    assert (E : (hid_write h (0 :: p ++ repeat 0 32) <? 0) = false)
      by (apply Z.ltb_ge, Hw).
    rewrite E. simpl. rewrite length_app. simpl. split; [lia|reflexivity].
  - unfold apply_op, _set_lod, run_send; simpl. rewrite Hq.
    assert (E : (hid_write h (0 :: q ++ repeat 0 32) <? 0) = false)
      by (apply Z.ltb_ge, Hw).
    rewrite E. simpl. rewrite length_app. simpl. split; [lia|reflexivity].
Qed.

Lemma setting_change_success_witness :
  dev (device app_working) = Some working_handle /\
  (forall b, 0 <= hid_write working_handle b) /\
  In 2000 POLL_KEYS /\ In 1 [0; 1] /\
  (length (written (device (apply_op app_working (OpPoll 2000 "High-performance")))) =
     S (length (written (device app_working))) /\
   toasts (apply_op app_working (OpPoll 2000 "High-performance")) =
     toasts app_working ++ [mkToast ("✓  Polling rate → " ++ py_int_str 2000 ++ " Hz")%string true]) /\
  (length (written (device (apply_op app_working (OpLod 1)))) = S (length (written (device app_working))) /\
   toasts (apply_op app_working (OpLod 1)) =
     toasts app_working ++ [mkToast ("✓  Lift-off → " ++ (if Z.eqb 1 0 then "1mm" else "2mm"))%string true]).
Proof.
  assert (H1 : dev (device app_working) = Some working_handle) by reflexivity.
  assert (H2 : forall b, 0 <= hid_write working_handle b) by (intro b; simpl; lia).
  assert (H3 : In 2000 POLL_KEYS) by (simpl; tauto).
  assert (H4 : In 1 [0; 1]) by (simpl; tauto).
  do 4 (split; [assumption|]).
  exact (setting_change_success app_working working_handle 2000 1 "High-performance" H1 H2 H3 H4).
Defined.

(* ---------------------------------------------------------------------------
   build.py: the dependency gate
   --------------------------------------------------------------------------- *)

Lemma missing_packages_eq (importable : string -> bool) :
  missing_packages importable = filter (fun pkg => negb (importable pkg)) BUILD_DEPS.
Proof. reflexivity. Qed.

(** The build goes on to PyInstaller exactly when the three modules
    import; otherwise it exits with status 1, printing the missing ones
    in the order [customtkinter], [hid], [PyInstaller], joined by [", "]
    in the warning and by spaces in the pip command. *)
Theorem dependency_gate_spec (importable : string -> bool) :
  (dependency_gate importable = BuildContinue <->
   importable "customtkinter" = true /\ importable "hid" = true /\
   importable "PyInstaller" = true) /\
  (filter (fun pkg => negb (importable pkg)) BUILD_DEPS <> [] ->
   dependency_gate importable =
     BuildExit 1
       [(nl ++ "⚠  Missing packages: " ++
           py_join ", " (filter (fun pkg => negb (importable pkg)) BUILD_DEPS))%string;
        ("   Run: pip install " ++
           py_join " " (filter (fun pkg => negb (importable pkg)) BUILD_DEPS) ++ nl)%string]).
Proof.
  unfold dependency_gate. rewrite missing_packages_eq. split.
  - unfold BUILD_DEPS; simpl.
    destruct (importable "customtkinter"), (importable "hid"), (importable "PyInstaller");
      simpl; split; first [discriminate | intros (? & ? & ?); discriminate | auto].
  - destruct (filter (fun pkg => negb (importable pkg)) BUILD_DEPS); [contradiction|reflexivity].
Qed.

Lemma dependency_gate_spec_witness :
  filter (fun pkg => negb (no_hid pkg)) BUILD_DEPS <> [] /\
  dependency_gate no_hid =
    BuildExit 1
      [(nl ++ "⚠  Missing packages: " ++
          py_join ", " (filter (fun pkg => negb (no_hid pkg)) BUILD_DEPS))%string;
       ("   Run: pip install " ++
          py_join " " (filter (fun pkg => negb (no_hid pkg)) BUILD_DEPS) ++ nl)%string].
Proof.
  assert (H : filter (fun pkg => negb (no_hid pkg)) BUILD_DEPS <> []) by (vm_compute; discriminate).
  split; [exact H|]. exact (proj2 (dependency_gate_spec no_hid) H).
Defined.
